(** * parfait/layer_wrappers.py: helpers over the QGIS 2 scripting API

    A shallow embedding of the module [parfait.layer_wrappers] (Python 2,
    PyQt4, QGIS 2).  The module is glue code: every function normalises its
    arguments and calls the host application.  The host (QGIS, Qt, Python's
    [re]) is not part of the repository; it enters the development as the
    record [Host], and the state it owns (layer registry, settings store,
    the calls it has received) as the record [World].  Functions of the
    module are computations in the monad [M] of state and Python
    exceptions. *)

From Stdlib Require Import ZArith Ascii.
From stdpp Require Import base option list strings gmap.

Local Open Scope string_scope.
Local Open Scope list_scope.
Local Open Scope Z_scope.

(** ** Python strings

    Paths, names and patterns are text values; [unicode(x)] is the identity
    on them.  Indices are Python's: integers, [-1] for "not found", negative
    slice bounds counted from the end. *)

Module PyStr.

Definition len (s : string) : Z := Z.of_nat (String.length s).

Fixpoint drop (n : nat) (s : string) : string :=
  match n with
  | O => s
  | S n' => match s with
            | EmptyString => EmptyString
            | String _ s' => drop n' s'
            end
  end.

Fixpoint take (n : nat) (s : string) : string :=
  match n with
  | O => EmptyString
  | S n' => match s with
            | EmptyString => EmptyString
            | String c s' => String c (take n' s')
            end
  end.

(** A slice bound [i] clipped to [0 .. len s], as Python does. *)
Definition clip (s : string) (i : Z) : nat :=
  Z.to_nat (if i <? 0 then Z.max 0 (len s + i) else Z.min i (len s)).

(** [s[i:]] *)
Definition slice_from (s : string) (i : Z) : string := drop (clip s i) s.

(** [s[:j]] *)
Definition slice_to (s : string) (j : Z) : string := take (clip s j) s.

(** [s[i]] for [0 <= i < len s]. *)
Definition char_at (s : string) (i : Z) : option ascii :=
  if i <? 0 then None else String.get (Z.to_nat i) s.

Fixpoint find_nat (sub s : string) : option nat :=
  if String.prefix sub s then Some O
  else match s with
       | EmptyString => None
       | String _ s' => S <$> find_nat sub s'
       end.

Fixpoint rfind_nat (sub s : string) : option nat :=
  match s with
  | EmptyString => if String.prefix sub s then Some O else None
  | String _ s' =>
      match rfind_nat sub s' with
      | Some i => Some (S i)
      | None => if String.prefix sub s then Some O else None
      end
  end.

Definition index_or_minus1 (o : option nat) : Z :=
  match o with Some i => Z.of_nat i | None => -1 end.

(** [s.find(sub)] *)
Definition find (s sub : string) : Z := index_or_minus1 (find_nat sub s).

(** [s.rfind(sub)] *)
Definition rfind (s sub : string) : Z := index_or_minus1 (rfind_nat sub s).

(** [sep.join(parts)] *)
Fixpoint join (sep : string) (parts : list string) : string :=
  match parts with
  | [] => ""
  | [p] => p
  | p :: rest => p +:+ sep +:+ join sep rest
  end.

(** Truth value of a string: non-empty. *)
Definition truthy (s : string) : bool :=
  match s with EmptyString => false | String _ _ => true end.

End PyStr.

(** ** os.path (POSIX flavour) *)

Module os_path.

(** [posixpath.basename]: [i = p.rfind('/') + 1; return p[i:]] *)
Definition basename (p : string) : string :=
  let i := PyStr.rfind p "/" + 1 in
  PyStr.slice_from p i.

(** The [while filenameIndex < dotIndex] loop of [genericpath._splitext];
    [n] is the number of iterations left, [dotIndex - filenameIndex]. *)
Fixpoint splitext_loop (p : string) (dotIndex : Z) (n : nat) (filenameIndex : Z)
  : string * string :=
  match n with
  | O => (p, "")
  | S n' =>
      if negb (bool_decide (PyStr.char_at p filenameIndex = Some "."%char))
      then (PyStr.slice_to p dotIndex, PyStr.slice_from p dotIndex)
      else splitext_loop p dotIndex n' (filenameIndex + 1)
  end.

(** [posixpath.splitext(p) = genericpath._splitext(p, '/', None, '.')] *)
Definition splitext (p : string) : string * string :=
  let sepIndex := PyStr.rfind p "/" in
  let dotIndex := PyStr.rfind p "." in
  if sepIndex <? dotIndex then
    let filenameIndex := sepIndex + 1 in
    splitext_loop p dotIndex (Z.to_nat (dotIndex - filenameIndex)) filenameIndex
  else (p, "").

End os_path.

(** ** Data of the host API *)

(** [QgsMapLayer.LayerType] *)
Inductive LayerType := VectorLayer | RasterLayer | PluginLayer.

(** [QGis.WkbType], the members without Z coordinate. *)
Inductive WkbType :=
| WKBUnknown | WKBPoint | WKBLineString | WKBPolygon
| WKBMultiPoint | WKBMultiLineString | WKBMultiPolygon | WKBNoGeometry.

(** [QtCore.QVariant.Type], the members the module names. *)
Inductive QVariantType := QV_Bool | QV_Int | QV_Double | QV_String.

(** Python objects that can stand in the type position of a field pair:
    the four builtin types that [TYPE_MAP] knows, and any other type
    object, told apart by its name. *)
Inductive PyType :=
| Py_str | Py_float | Py_int | Py_bool
| Py_other (name : string).

Record QgsField := { field_name : string; field_type : QVariantType }.

Record CRS := { crs_isValid : bool; crs_authid : string }.

(** A layer handle: what the module reads from it ([name()], [type()],
    [isValid()]) and what it was opened from. *)
Record Layer := {
  layer_name : string;
  layer_type : LayerType;
  layer_source : string;
  layer_provider : string;
  layer_isValid : bool
}.

#[global] Instance LayerType_eq_dec : EqDecision LayerType.
Proof. solve_decision. Defined.
#[global] Instance WkbType_eq_dec : EqDecision WkbType.
Proof. solve_decision. Defined.
#[global] Instance QVariantType_eq_dec : EqDecision QVariantType.
Proof. solve_decision. Defined.
#[global] Instance PyType_eq_dec : EqDecision PyType.
Proof. solve_decision. Defined.
#[global] Instance QgsField_eq_dec : EqDecision QgsField.
Proof. solve_decision. Defined.
#[global] Instance CRS_eq_dec : EqDecision CRS.
Proof. solve_decision. Defined.
#[global] Instance Layer_eq_dec : EqDecision Layer.
Proof. solve_decision. Defined.

(** ** Arguments as Python passes them *)

(** [types]: a single layer type or a list of them. *)
Inductive TypesArg := Types_one (t : LayerType) | Types_list (ts : list LayerType).

(** [layer] of [add_layer]: a layer handle, which has no [__iter__], or a
    list of handles, which has. *)
Inductive LayerArg := Layer_one (l : Layer) | Layer_seq (ls : list Layer).

(** An entry of [fields]: a [QgsField] object or a tuple (name, type). *)
Inductive FieldSpec := Field_object (f : QgsField) | Field_pair (name : string) (ty : PyType).

(** [fields]: a [QgsFields] container or a Python list of entries. *)
Inductive FieldsArg := Fields_QgsFields (fs : list QgsField) | Fields_list (l : list FieldSpec).

(** [crs]: a CRS object or a string with the authority id. *)
Inductive CrsArg := Crs_object (c : CRS) | Crs_string (authid : string).

(** ** The host and its state *)

(** Calls into the host that open data or change its state. *)
Inductive HostCall :=
| CallVectorLayer (path baseName providerLib : string)
| CallRasterLayer (path baseName : string)
| CallFileWriter (path encoding : string) (fields : list QgsField)
                 (geometryType : WkbType) (crs : CRS) (driverName : string)
| CallAddMapLayers (layers : list Layer) (addToLegend : bool)
| CallSetValue (key : string) (value : option string).

(** State owned by the host process.  [registry] is
    [QgsMapLayerRegistry.instance().mapLayers().values()], in the
    registry's iteration order; [settings] is the [QSettings] store, a null
    variant being [None]; [journal] lists the calls received, oldest
    first. *)
Record World := {
  registry : list Layer;
  settings : gmap string (option string);
  journal : list HostCall
}.

Inductive PyExc :=
| NameError (name : string)
| AttributeError (attr : string)
| KeyError (key : string)
| TypeError (msg : string)
| RuntimeError (msg : string)
| ReError (pattern : string).

Inductive Outcome (A : Type) :=
| Return (a : A)
| Raise (e : PyExc).
Arguments Return {A} a.
Arguments Raise {A} e.

(** What the module cannot know about its host.
    - [re_compile p] is the matcher [re] builds from the pattern [p]
      ([match] is anchored at the start of the subject), or [None] when
      [p] is not a regular expression;
    - [ambient] lists the names that are bound without the module's own
      text binding them: Python's builtins and the public names of
      [qgis.core], brought in by the star import; [foreign n args] is
      what the object bound to such a name [n] does when the module uses
      it on [args];
    - [vector_valid] and [raster_valid] tell whether a data source opens,
      given the calls made so far;
    - [supportedFiltersAndFormats] is the writer's table, as the items of
      the dictionary in iteration order;
    - [crs_from_string] is the constructor [QgsCoordinateReferenceSystem];
    - [registry_after_add] is the registry after [addMapLayers]. *)
Record Host := {
  re_compile : string -> option (string -> bool);
  ambient : list string;
  foreign : forall A B : Type, string -> B -> World -> Outcome A * World;
  vector_valid : list HostCall -> string -> string -> bool;
  raster_valid : list HostCall -> string -> bool;
  supportedFiltersAndFormats : list (string * string);
  crs_from_string : string -> CRS;
  registry_after_add : list Layer -> bool -> list Layer -> list Layer
}.

(** ** The monad of module code: host state and exceptions *)

Definition M (A : Type) : Type := World -> Outcome A * World.

Definition ret {A} (a : A) : M A := fun w => (Return a, w).

Definition raise {A} (e : PyExc) : M A := fun w => (Raise e, w).

Definition bind {A B} (m : M A) (k : A -> M B) : M B :=
  fun w => match m w with
           | (Return a, w') => k a w'
           | (Raise e, w') => (Raise e, w')
           end.

Declare Scope py_scope.
Delimit Scope py_scope with py.
Notation "x <- m ;; k" := (bind m (fun x => k))
  (at level 100, m at next level, right associativity) : py_scope.
Notation "m ;; k" := (bind m (fun _ => k))
  (at level 100, right associativity) : py_scope.
Local Open Scope py_scope.

Definition log (c : HostCall) (w : World) : World :=
  {| registry := registry w; settings := settings w; journal := journal w ++ [c] |}.

(** A comprehension [[x for x in xs if p(x)]] whose test may raise. *)
Fixpoint comprehension {A} (p : A -> M bool) (xs : list A) : M (list A) :=
  match xs with
  | [] => ret []
  | x :: rest =>
      b <- p x ;;
      kept <- comprehension p rest ;;
      ret (if b then x :: kept else kept)
  end.

(** A literal dictionary and its [get(key, default)]. *)
Fixpoint dict_get {K V} `{EqDecision K} (d : list (K * V)) (key : K) (default : V) : V :=
  match d with
  | [] => default
  | (k, v) :: rest => if decide (k = key) then v else dict_get rest key default
  end.

(** ** The module *)

(** Names bound by the module's own text: its imports, [_layerreg], the
    two tables and the functions. *)
Definition module_names : list string :=
  [ "os"; "re"; "QtGui"; "QtCore"; "_layerreg"; "map_layers"; "add_layer";
    "TYPE_MAP"; "GEOM_TYPE_MAP"; "_toQgsField"; "_fieldName";
    "new_points_layer"; "new_lines_layer"; "new_polygons_layer";
    "new_vector_layer"; "create_wms_layer"; "create_wfs_layer";
    "layer_from_name"; "load_layer"; "load_layer_no_crs_dialog";
    "load_vector" ].

Definition TYPE_MAP : list (PyType * QVariantType) :=
  [ (Py_str, QV_String); (Py_float, QV_Double); (Py_int, QV_Int); (Py_bool, QV_Bool) ].

Definition GEOM_TYPE_MAP : list (WkbType * string) :=
  [ (WKBPoint, "Point"); (WKBLineString, "LineString"); (WKBPolygon, "Polygon");
    (WKBMultiPoint, "MultiPoint"); (WKBMultiLineString, "MultiLineString");
    (WKBMultiPolygon, "MultiPolygon") ].

(** The members of the class [QGis] that are geometry types, by name. *)
Definition QGis_members : list (string * WkbType) :=
  [ ("WKBUnknown", WKBUnknown); ("WKBPoint", WKBPoint);
    ("WKBLineString", WKBLineString); ("WKBPolygon", WKBPolygon);
    ("WKBMultiPoint", WKBMultiPoint); ("WKBMultiLineString", WKBMultiLineString);
    ("WKBMultiPolygon", WKBMultiPolygon); ("WKBNoGeometry", WKBNoGeometry) ].

(** [_toQgsField] *)
Definition _toQgsField (f : FieldSpec) : QgsField :=
  match f with
  | Field_object q => q
  | Field_pair f0 f1 =>
      {| field_name := f0; field_type := dict_get TYPE_MAP f1 QV_String |}
  end.

(** The loop of [layer_from_name]: return at the first layer of that
    name; falling off the end returns [None]. *)
Fixpoint first_named (name : string) (layers : list Layer) : option Layer :=
  match layers with
  | [] => None
  | layer :: rest =>
      if bool_decide (layer_name layer = name) then Some layer
      else first_named name rest
  end.

(** The loop that fills [OGRCodes] from the items of [formats]. *)
Definition OGRCodes_of (formats : list (string * string)) : gmap string string :=
  fold_left
    (fun (OGRCodes : gmap string string) '(key, value) =>
       let extension := key in
       let extension := PyStr.slice_from extension (PyStr.find extension "*." + 2) in
       let extension := PyStr.slice_to extension (PyStr.find extension " ") in
       <[extension := value]> OGRCodes)
    formats ∅.

(** Truth value of an optional argument: [None] and the empty string or
    list are false. *)
Definition truthy_name (name : option string) : bool :=
  match name with Some s => PyStr.truthy s | None => false end.

Definition truthy_types (types : option (list LayerType)) : bool :=
  match types with Some (_ :: _) => true | _ => false end.

Section WithHost.

Variable H : Host.

(** *** Host primitives *)

(** Evaluation of a global name that the module's text does not bind. *)
Definition load_global (n : string) : M unit :=
  if bool_decide (n ∈ ambient H) then ret tt else raise (NameError n).

(** [QGis.<member>] *)
Definition QGis_attr (member : string) : M WkbType :=
  match list_find (fun kv => fst kv = member) QGis_members with
  | Some (_, (_, g)) => ret g
  | None => raise (AttributeError member)
  end.

(** [_layerreg.mapLayers().values()] *)
Definition mapLayers_values : M (list Layer) :=
  fun w => (Return (registry w), w).

(** [QgsMapLayerRegistry.instance().addMapLayers(layers, addToLegend)] *)
Definition addMapLayers (layers : list Layer) (addToLegend : bool) : M unit :=
  fun w =>
    (Return tt,
     log (CallAddMapLayers layers addToLegend)
       {| registry := registry_after_add H layers addToLegend (registry w);
          settings := settings w;
          journal := journal w |}).

(** [re.match(pattern, subject)], as a truth value. *)
Definition re_match (pattern subject : string) : M bool :=
  match re_compile H pattern with
  | Some matcher => ret (matcher subject)
  | None => raise (ReError pattern)
  end.

(** [QgsVectorLayer(path, baseName, providerLib)] *)
Definition QgsVectorLayer (path baseName providerLib : string) : M Layer :=
  fun w =>
    (Return {| layer_name := baseName;
               layer_type := VectorLayer;
               layer_source := path;
               layer_provider := providerLib;
               layer_isValid := vector_valid H (journal w) path providerLib |},
     log (CallVectorLayer path baseName providerLib) w).

(** [QgsRasterLayer(path, baseName)] *)
Definition QgsRasterLayer (path baseName : string) : M Layer :=
  fun w =>
    (Return {| layer_name := baseName;
               layer_type := RasterLayer;
               layer_source := path;
               layer_provider := "gdal";
               layer_isValid := raster_valid H (journal w) path |},
     log (CallRasterLayer path baseName) w).

(** [QgsVectorFileWriter(path, encoding, fields, geometryType, crs, driverName)] *)
Definition QgsVectorFileWriter (path encoding : string) (fields : list QgsField)
    (geometryType : WkbType) (crs : CRS) (driverName : string) : M unit :=
  fun w => (Return tt, log (CallFileWriter path encoding fields geometryType crs driverName) w).

(** [QgsCoordinateReferenceSystem(authid)] *)
Definition QgsCoordinateReferenceSystem (authid : string) : M CRS :=
  ret (crs_from_string H authid).

(** [QSettings().value(key)] *)
Definition QSettings_value (key : string) : M (option string) :=
  fun w => (Return (default None (settings w !! key)), w).

(** [QSettings().setValue(key, value)] *)
Definition QSettings_setValue (key : string) (value : option string) : M unit :=
  fun w =>
    (Return tt,
     log (CallSetValue key value)
       {| registry := registry w;
          settings := <[key := value]> (settings w);
          journal := journal w |}).

(** [d[key]] on [OGRCodes] *)
Definition OGRCodes_item (OGRCodes : gmap string string) (key : string) : M string :=
  match OGRCodes !! key with
  | Some v => ret v
  | None => raise (KeyError key)
  end.

(** ['field=' + f]: [f] is a tuple or a [QgsField], never a string. *)
Definition str_plus_field (s : string) (f : FieldSpec) : M string :=
  match f with
  | Field_object _ => raise (TypeError "cannot concatenate 'str' and 'QgsField' objects")
  | Field_pair _ _ => raise (TypeError "cannot concatenate 'str' and 'tuple' objects")
  end.

Fixpoint for_each {A B} (f : A -> M B) (xs : list A) : M (list B) :=
  match xs with
  | [] => ret []
  | x :: rest => y <- f x ;; ys <- for_each f rest ;; ret (y :: ys)
  end.

Definition entries (fields : FieldsArg) : list FieldSpec :=
  match fields with
  | Fields_QgsFields fs => Field_object <$> fs
  | Fields_list l => l
  end.

(** *** Functions of the module *)

(** [map_layers(name=None, types=None)] *)
Definition map_layers (name : option string) (types : option TypesArg)
  : M (list Layer) :=
  let types :=
    match types with
    | Some (Types_one t) => Some [t]
    | Some (Types_list ts) => Some ts
    | None => None
    end in
  layers <- mapLayers_values ;;
  let _layers := [] in
  if truthy_name name || truthy_types types then
    _layers <-
      (if truthy_name name
       then comprehension
              (fun layer => re_match (default "" name) (layer_name layer)) layers
       else ret _layers) ;;
    _layers <-
      (if truthy_types types
       then ret (_layers ++
                 filter (fun layer => layer_type layer ∈ default [] types) layers)
       else ret _layers) ;;
    ret _layers
  else ret layers.

(** [add_layer(layer, load_in_legend=True)] *)
Definition add_layer (layer : LayerArg) (load_in_legend : bool) : M (list Layer) :=
  let layer :=
    match layer with
    | Layer_one l => [l]      (* not hasattr(layer, "__iter__") *)
    | Layer_seq ls => ls
    end in
  addMapLayers layer load_in_legend ;;
  ret layer.

(** [new_vector_layer(filename, fields, geometryType, crs, encoding="utf-8")] *)
Definition new_vector_layer (filename : option string) (fields : FieldsArg)
    (geometryType : WkbType) (crs : CrsArg) (encoding : string) : M Layer :=
  crs <- match crs with
         | Crs_string authid => QgsCoordinateReferenceSystem authid
         | Crs_object c => ret c
         end ;;
  match filename with
  | None =>
      load_global "self" ;;
      uri <- foreign H string WkbType "self.GEOM_TYPE_MAP" geometryType ;;
      let uri :=
        if crs_isValid crs then uri +:+ ("?crs=" +:+ crs_authid crs +:+ "&")
        else uri in
      fieldsdesc <- for_each (str_plus_field "field=") (entries fields) ;;
      let fieldsstring := PyStr.join "&" fieldsdesc in
      let uri := uri +:+ fieldsstring in
      QgsVectorLayer uri "mem_layer" "memory"
  | Some filename =>
      let formats := supportedFiltersAndFormats H in
      let OGRCodes := OGRCodes_of formats in
      let extension := PyStr.slice_from (snd (os_path.splitext filename)) 1 in
      let '(extension, filename) :=
        match OGRCodes !! extension with
        | None => ("shp", filename +:+ ".shp")
        | Some _ => (extension, filename)
        end in
      let qgsfields :=
        match fields with
        | Fields_QgsFields fs => fs
        | Fields_list l => _toQgsField <$> l
        end in
      driverName <- OGRCodes_item OGRCodes extension ;;
      QgsVectorFileWriter filename encoding qgsfields geometryType crs driverName ;;
      QgsVectorLayer filename (os_path.basename filename) "ogr"
  end.

(** [new_points_layer], [new_lines_layer], [new_polygons_layer]: each
    calls the global name [newVectorLayer]. *)
Definition new_points_layer (filename : option string) (fields : FieldsArg)
    (crs : CrsArg) (encoding : string) : M Layer :=
  load_global "newVectorLayer" ;;
  geometryType <- QGis_attr "WKBPoint" ;;
  foreign H Layer _ "newVectorLayer" (filename, fields, geometryType, crs, encoding).

Definition new_lines_layer (filename : option string) (fields : FieldsArg)
    (crs : CrsArg) (encoding : string) : M Layer :=
  load_global "newVectorLayer" ;;
  geometryType <- QGis_attr "WKBLine" ;;
  foreign H Layer _ "newVectorLayer" (filename, fields, geometryType, crs, encoding).

Definition new_polygons_layer (filename : option string) (fields : FieldsArg)
    (crs : CrsArg) (encoding : string) : M Layer :=
  load_global "newVectorLayer" ;;
  geometryType <- QGis_attr "WKBPolygon" ;;
  foreign H Layer _ "newVectorLayer" (filename, fields, geometryType, crs, encoding).

(** [layer_from_name(name)] *)
Definition layer_from_name (name : string) : M (option Layer) :=
  layers <- mapLayers_values ;;
  ret (first_named name layers).

(** [load_layer(filename, name=None)] *)
Definition load_layer (filename : string) (name : option string) : M Layer :=
  let name :=
    if truthy_name name then default "" name
    else fst (os_path.splitext (os_path.basename filename)) in
  qgslayer <- QgsVectorLayer filename name "ogr" ;;
  if negb (layer_isValid qgslayer) then
    qgslayer <- QgsRasterLayer filename name ;;
    if negb (layer_isValid qgslayer) then
      raise (RuntimeError ("Could not load layer: " +:+ filename))
    else ret qgslayer
  else ret qgslayer.

(** [load_layer_no_crs_dialog(filename, name=None)]; the settings object
    comes from the global name [QTCore]. *)
Definition load_layer_no_crs_dialog (filename : string) (name : option string)
  : M Layer :=
  load_global "QTCore" ;;
  foreign H unit unit "QTCore.QSettings" tt ;;
  prjSetting <- QSettings_value "/Projections/defaultBehaviour" ;;
  QSettings_setValue "/Projections/defaultBehaviour" (Some "") ;;
  layer <- load_layer filename name ;;
  QSettings_setValue "/Projections/defaultBehaviour" prjSetting ;;
  ret layer.

End WithHost.

(** ** The result of the two filters *)

(** The list of types that [map_layers] filters by: a single value is
    wrapped into a list. *)
Definition type_set (types : TypesArg) : list LayerType :=
  match types with Types_one t => [t] | Types_list ts => ts end.

Definition name_matches (rx : string -> bool) (layers : list Layer) : list Layer :=
  filter (fun layer => Is_true (rx (layer_name layer))) layers.

Definition type_matches (types : list LayerType) (layers : list Layer) : list Layer :=
  filter (fun layer => layer_type layer ∈ types) layers.

(** What the specification says of a call with both filters: the layers
    whose name matches, followed by the layers whose type is in the set. *)
Definition concatenation_of_filters (rx : string -> bool) (types : list LayerType)
    (layers : list Layer) : list Layer :=
  name_matches rx layers ++ type_matches types layers.

(** ** The rest of the module *)

(** The argument of [_fieldName]: a string, or an entry of a field list. *)
Inductive FieldNameArg := Name_text (s : string) | Name_entry (f : FieldSpec).

(** [_fieldName]: a string is returned as it is
    ([isinstance(f, basestring)]); of anything else the method [name()] is
    called, which a [QgsField] has and a tuple has not. *)
Definition _fieldName (f : FieldNameArg) : M string :=
  match f with
  | Name_text s => ret s
  | Name_entry (Field_object q) => ret (field_name q)
  | Name_entry (Field_pair _ _) => raise (AttributeError "name")
  end.

(** The three assignments to [extension] in the loop that fills
    [OGRCodes], for one key of [formats]. *)
Definition filter_extension (key : string) : string :=
  let extension := key in
  let extension := PyStr.slice_from extension (PyStr.find extension "*." + 2) in
  let extension := PyStr.slice_to extension (PyStr.find extension " ") in
  extension.

(** A format, as the host lists it, reads as the extension [ext] when
    [filter_extension] gives [ext] for its key.  [decides_driver formats
    ext driverName]: the last format of [formats], in iteration order,
    that reads as [ext] has the driver [driverName]. *)
Definition decides_driver (formats : list (string * string)) (ext driverName : string)
  : Prop :=
  exists before key after,
    formats = before ++ (key, driverName) :: after
    /\ filter_extension key = ext
    /\ forall key' value', (key', value') ∈ after -> filter_extension key' <> ext.

(** No format of [formats] reads as the extension [ext]. *)
Definition no_format_reads (formats : list (string * string)) (ext : string) : Prop :=
  forall key value, (key, value) ∈ formats -> filter_extension key <> ext.

(** [load_vector(path, name=None, provider="ogr")] *)
Definition load_vector (H : Host) (path : string) (name : option string)
    (provider : string) : M Layer :=
  let name := if negb (truthy_name name) then os_path.basename path
              else default "" name in
  QgsVectorLayer H path name provider.

(** [create_wms_layer] and [create_wfs_layer]: the body is [pass]. *)
Definition create_wms_layer (url layer style : string) (crs : CrsArg) : M unit :=
  ret tt.

Definition create_wfs_layer (url layer : string) (crs : CrsArg) : M unit :=
  ret tt.

(** The type matches of a call, for [types] as passed. *)
Definition type_matches_of (types : option TypesArg) (layers : list Layer) : list Layer :=
  match types with
  | None => []
  | Some t => type_matches (type_set t) layers
  end.

(** Characters of a string. *)
Definition chars (s : string) : list ascii := String.list_ascii_of_string s.

(** ** A host to run the module on

    A small, concrete host for the examples: a matcher for the fragment of
    [re] made of literal characters, [.] and postfix [*]; the names the
    module uses of Python's builtins and of [qgis.core]; three writer
    formats; two data sources on disk. *)

Module Sample.

Inductive atom := Lit (c : ascii) | AnyChar.

Definition special (c : ascii) : bool :=
  bool_decide (c ∈ String.list_ascii_of_string "\^$+?{}[]()|*").

Definition atom_of (c : ascii) : atom :=
  if bool_decide (c = "."%char) then AnyChar else Lit c.

(** The pattern as a list of atoms, each with its star flag; [None]
    outside the fragment and for a star with nothing to repeat. *)
Fixpoint parse (p : list ascii) : option (list (atom * bool)) :=
  match p with
  | [] => Some []
  | c :: rest =>
      if special c then None
      else match rest with
           | "*"%char :: rest' => ((atom_of c, true) ::.) <$> parse rest'
           | _ => ((atom_of c, false) ::.) <$> parse rest
           end
  end.

Definition atom_matches (a : atom) (c : ascii) : bool :=
  match a with
  | Lit c' => bool_decide (c = c')
  | AnyChar => negb (bool_decide (c = "010"%char))
  end.

(** Does a prefix of [s] match the items? *)
Fixpoint match_here (items : list (atom * bool)) (s : list ascii) : bool :=
  match items with
  | [] => true
  | (a, false) :: rest =>
      match s with
      | c :: s' => atom_matches a c && match_here rest s'
      | [] => false
      end
  | (a, true) :: rest =>
      (fix star (s : list ascii) : bool :=
         match_here rest s
         || match s with
            | c :: s' => atom_matches a c && star s'
            | [] => false
            end) s
  end.

Definition compile (pattern : string) : option (string -> bool) :=
  (fun items subject => match_here items (String.list_ascii_of_string subject))
    <$> parse (String.list_ascii_of_string pattern).

Definition names : list string :=
  [ "None"; "True"; "False"; "isinstance"; "hasattr"; "list"; "str"; "float";
    "int"; "bool"; "basestring"; "unicode"; "RuntimeError";
    "QgsMapLayerRegistry"; "QgsMapLayer"; "QGis"; "QgsField"; "QgsFields";
    "QgsVectorLayer"; "QgsRasterLayer"; "QgsVectorFileWriter";
    "QgsCoordinateReferenceSystem" ].

Definition formats : list (string * string) :=
  [ ("ESRI Shapefile [OGR] (*.shp *.SHP)", "ESRI Shapefile");
    ("GeoJSON [OGR] (*.geojson *.GEOJSON)", "GeoJSON");
    ("GeoPackage [OGR] (*.gpkg *.GPKG)", "GPKG") ].

Definition was_written (path : string) (c : HostCall) : bool :=
  match c with
  | CallFileWriter p _ _ _ _ _ => bool_decide (p = path)
  | _ => false
  end.

Definition host : Host := {|
  re_compile := compile;
  ambient := names;
  foreign := fun A B n _ w => (Raise (AttributeError n), w);
  vector_valid := fun calls path providerLib =>
    bool_decide (providerLib = "ogr")
    && (bool_decide (path = "/data/roads.shp") || existsb (was_written path) calls);
  raster_valid := fun calls path => bool_decide (path = "/data/dem.tif");
  supportedFiltersAndFormats := formats;
  crs_from_string := fun authid =>
    {| crs_isValid := bool_decide (authid = "EPSG:4326"); crs_authid := authid |};
  registry_after_add := fun layers _ reg => reg ++ filter (fun l => Is_true (layer_isValid l)) layers
|}.

Definition roads : Layer :=
  {| layer_name := "roads"; layer_type := VectorLayer;
     layer_source := "/data/roads.shp"; layer_provider := "ogr";
     layer_isValid := true |}.

Definition dem : Layer :=
  {| layer_name := "dem"; layer_type := RasterLayer;
     layer_source := "/data/dem.tif"; layer_provider := "gdal";
     layer_isValid := true |}.

Definition city_bounds : Layer :=
  {| layer_name := "City Boundary"; layer_type := VectorLayer;
     layer_source := "/data/bounds.shp"; layer_provider := "ogr";
     layer_isValid := true |}.

Definition world : World :=
  {| registry := [roads; dem; city_bounds];
     settings := {[ "/Projections/defaultBehaviour" := Some "prompt" ]};
     journal := [] |}.

Definition wgs84 : CRS := {| crs_isValid := true; crs_authid := "EPSG:4326" |}.

End Sample.

(** The sample host built without the shapefile driver. *)
Definition host_without_shapefile : Host := {|
  re_compile := re_compile Sample.host;
  ambient := ambient Sample.host;
  foreign := foreign Sample.host;
  vector_valid := vector_valid Sample.host;
  raster_valid := raster_valid Sample.host;
  supportedFiltersAndFormats :=
    [ ("GeoJSON [OGR] (*.geojson *.GEOJSON)", "GeoJSON");
      ("GeoPackage [OGR] (*.gpkg *.GPKG)", "GPKG") ];
  crs_from_string := crs_from_string Sample.host;
  registry_after_add := registry_after_add Sample.host
|}.

(** ** Properties *)

Ltac decide_by_computation := apply (bool_decide_unpack _); vm_compute; exact I.

(** *** Strings, paths and the sample host *)

Example basename_ex : os_path.basename "/data/roads.shp" = "roads.shp".
Proof. reflexivity. Qed.

Example splitext_ex :
  os_path.splitext "/data/roads.shp" = ("/data/roads", ".shp")
  /\ os_path.splitext "out.xyz" = ("out", ".xyz")
  /\ os_path.splitext "/data.d/.hidden" = ("/data.d/.hidden", "")
  /\ os_path.splitext "plain" = ("plain", "").
Proof. repeat split; reflexivity. Qed.

Example slices_ex :
  PyStr.slice_from "abcdef" 2 = "cdef" /\ PyStr.slice_to "abcdef" (-1) = "abcde"
  /\ PyStr.find "a *.shp" "*." = 2 /\ PyStr.find "abc" " " = -1
  /\ PyStr.rfind "a/b/c" "/" = 3.
Proof. repeat split; reflexivity. Qed.

Example sample_re :
  (fun m => m "City Boundary") <$> Sample.compile ".*Bound.*" = Some true
  /\ (fun m => m "roads") <$> Sample.compile ".*Bound.*" = Some false
  /\ (fun m => m "roads") <$> Sample.compile "" = Some true
  /\ (fun m => m "roads") <$> Sample.compile "oads" = Some false
  /\ (fun m => m "roads") <$> Sample.compile "ro*a" = Some true
  /\ (fun m => m "roads") <$> Sample.compile "(" = None.
Proof. repeat split; reflexivity. Qed.

Example sample_OGRCodes :
  OGRCodes_of Sample.formats !! "shp" = Some "ESRI Shapefile"
  /\ OGRCodes_of Sample.formats !! "geojson" = Some "GeoJSON"
  /\ OGRCodes_of Sample.formats !! "xyz" = None.
Proof. repeat split; vm_compute; reflexivity. Qed.

(** *** The monad *)

Lemma bind_Return {A B} (m : M A) (k : A -> M B) w a w' :
  m w = (Return a, w') -> bind m k w = k a w'.
Proof. intros Hm. unfold bind. rewrite Hm. reflexivity. Qed.

Lemma bind_Raise {A B} (m : M A) (k : A -> M B) w e w' :
  m w = (Raise e, w') -> bind m k w = (Raise e, w').
Proof. intros Hm. unfold bind. rewrite Hm. reflexivity. Qed.

(** *** Field normalisation *)

Lemma TYPE_MAP_default (ty : PyType) :
  ty ∉ TYPE_MAP.*1 -> dict_get TYPE_MAP ty QV_String = QV_String.
Proof.
  intros Hnot. unfold TYPE_MAP in *. cbn in *.
  repeat (case_decide; [ subst; exfalso; apply Hnot; set_solver | ]).
  reflexivity.
Qed.

Lemma TYPE_MAP_mapped (ty : PyType) (code : QVariantType) :
  (ty, code) ∈ TYPE_MAP -> dict_get TYPE_MAP ty QV_String = code.
Proof.
  unfold TYPE_MAP. rewrite !elem_of_cons, elem_of_nil.
  intros [Heq | [Heq | [Heq | [Heq | []]]]]; inversion Heq; subst; reflexivity.
Qed.

(** C6: [_toQgsField] gives a (name, type) pair whose type is not a key of
    [TYPE_MAP] (str, float, int, bool) the string code; a pair with a
    mapped type gets the code the table holds for it; a [QgsField] object
    is returned as it is.  In [new_vector_layer] with a file name and a list
    of fields, the writer receives exactly the fields so normalised. *)
Theorem toQgsField_unmapped_defaults_to_string :
  TYPE_MAP.*1 = [Py_str; Py_float; Py_int; Py_bool]
  /\ (forall name ty, ty ∉ TYPE_MAP.*1 ->
        _toQgsField (Field_pair name ty)
        = {| field_name := name; field_type := QV_String |})
  /\ (forall name ty code, (ty, code) ∈ TYPE_MAP ->
        _toQgsField (Field_pair name ty)
        = {| field_name := name; field_type := code |})
  /\ (forall q, _toQgsField (Field_object q) = q)
  /\ (forall H filename l geometryType crs encoding w layer w',
        new_vector_layer H (Some filename) (Fields_list l) geometryType crs encoding w
        = (Return layer, w') ->
        exists path c driverName,
          journal w' = journal w ++
            [ CallFileWriter path encoding (_toQgsField <$> l) geometryType c driverName;
              CallVectorLayer path (os_path.basename path) "ogr" ]).
Proof.
  split; [ reflexivity | ].
  split; [ intros name ty Hty; unfold _toQgsField; rewrite TYPE_MAP_default by assumption; reflexivity | ].
  split; [ intros name ty code Hin; unfold _toQgsField; rewrite (TYPE_MAP_mapped _ _ Hin); reflexivity | ].
  split; [ reflexivity | ].
  intros H filename l geometryType crs encoding w layer w'.
  unfold new_vector_layer.
  destruct crs as [c | authid]; cbn;
    destruct (OGRCodes_of (supportedFiltersAndFormats H)
                !! PyStr.slice_from (os_path.splitext filename).2 1) as [d |] eqn:Hext;
    cbn; unfold OGRCodes_item.
  all: try rewrite Hext; cbn.
  all: try (destruct (OGRCodes_of (supportedFiltersAndFormats H) !! "shp") as [shp |]; cbn).
  all: intros Heq; inversion Heq; subst; cbn.
  all: rewrite <- app_assoc; cbn; eauto.
Qed.

(** *** Registering layers *)

(** C7: registering a single layer handle and registering the one-element
    list holding it are the same computation: the handle is wrapped into
    the list [[L]], that list is handed to the registry's [addMapLayers]
    together with the legend flag, and the list is returned. *)
Theorem add_layer_single_equals_singleton_list :
  forall H (L : Layer) (load_in_legend : bool) (w : World),
    add_layer H (Layer_one L) load_in_legend w
    = add_layer H (Layer_seq [L]) load_in_legend w
    /\ add_layer H (Layer_one L) load_in_legend w
       = (Return [L],
          {| registry := registry_after_add H [L] load_in_legend (registry w);
             settings := settings w;
             journal := journal w ++ [CallAddMapLayers [L] load_in_legend] |}).
Proof. intros H L load_in_legend w. split; reflexivity. Qed.

(** *** Exact-name lookup *)

Lemma first_named_Some name layers l :
  first_named name layers = Some l <->
  exists pre post, layers = pre ++ l :: post /\ layer_name l = name
                   /\ forall l', l' ∈ pre -> layer_name l' <> name.
Proof.
  induction layers as [| x rest IH]; cbn.
  - split; [ discriminate | ].
    intros (pre & post & Heq & _). destruct pre; discriminate.
  - case_bool_decide as Hx.
    + split.
      * intros [= <-]. exists [], rest. repeat split; [ assumption | ].
        intros l' Hl'. inversion Hl'.
      * intros (pre & post & Heq & Hname & Hpre).
        destruct pre as [| y pre]; cbn in Heq; injection Heq as <- ->.
        -- reflexivity.
        -- exfalso. apply (Hpre x); [ left | assumption ].
    + rewrite IH. split.
      * intros (pre & post & -> & Hname & Hpre).
        exists (x :: pre), post. repeat split; [ assumption | ].
        intros l' [-> | Hl']%elem_of_cons; [ assumption | auto ].
      * intros (pre & post & Heq & Hname & Hpre).
        destruct pre as [| y pre]; cbn in Heq; injection Heq as <- ->.
        -- contradiction.
        -- exists pre, post. repeat split; [ assumption | ].
           intros l' Hl'. apply Hpre. right. assumption.
Qed.

Lemma first_named_None name layers :
  first_named name layers = None <->
  forall l, l ∈ layers -> layer_name l <> name.
Proof.
  induction layers as [| x rest IH]; cbn.
  - split; [ intros _ l Hl; inversion Hl | reflexivity ].
  - case_bool_decide as Hx.
    + split; [ discriminate | ].
      intros Hall. exfalso. apply (Hall x); [ left | assumption ].
    + rewrite IH. split.
      * intros Hall l [-> | Hl]%elem_of_cons; auto.
      * intros Hall l Hl. apply Hall. right. assumption.
Qed.

(** C8: [layer_from_name(X)] never raises and leaves the host untouched.
    It returns a layer exactly when that layer is the first one, in the
    registry's iteration order, whose name equals X (every layer before it
    has another name), and it returns [None] exactly when no registered
    layer is named X. *)
Theorem layer_from_name_returns_first_match :
  forall (X : string) (w : World),
    exists r : option Layer,
      layer_from_name X w = (Return r, w)
      /\ (forall l, r = Some l <->
            exists pre post, registry w = pre ++ l :: post
                             /\ layer_name l = X
                             /\ forall l', l' ∈ pre -> layer_name l' <> X)
      /\ (r = None <-> forall l, l ∈ registry w -> layer_name l <> X).
Proof.
  intros X w. exists (first_named X (registry w)).
  split; [ reflexivity | ].
  split; [ intros l; apply first_named_Some | apply first_named_None ].
Qed.

(** *** Creating a file-backed layer *)

Example new_vector_layer_out_xyz :
  let r := new_vector_layer Sample.host (Some "out.xyz") (Fields_list [Field_pair "id" Py_int])
             WKBPoint (Crs_string "EPSG:4326") "utf-8" Sample.world in
  layer_source <$> (match fst r with Return l => Some l | Raise _ => None end) = Some "out.xyz.shp"
  /\ journal (snd r)
     = [ CallFileWriter "out.xyz.shp" "utf-8" [{| field_name := "id"; field_type := QV_Int |}]
           WKBPoint Sample.wgs84 "ESRI Shapefile";
         CallVectorLayer "out.xyz.shp" "out.xyz.shp" "ogr" ].
Proof. split; vm_compute; reflexivity. Qed.

Example new_vector_layer_out_geojson :
  let r := new_vector_layer Sample.host (Some "/tmp/out.geojson") (Fields_list [])
             WKBPolygon (Crs_object Sample.wgs84) "utf-8" Sample.world in
  journal (snd r)
  = [ CallFileWriter "/tmp/out.geojson" "utf-8" [] WKBPolygon Sample.wgs84 "GeoJSON";
      CallVectorLayer "/tmp/out.geojson" "out.geojson" "ogr" ].
Proof. vm_compute; reflexivity. Qed.

(** *** Loading a layer *)

(** C5: [load_layer] opens the path as a vector layer first.  If that
    handle is valid it is returned and no raster layer is opened.  If it is
    not, the path is opened as a raster layer, and that handle is returned
    when valid.  [RuntimeError("Could not load layer: " + path)] is raised
    exactly when both handles are invalid; nothing else is ever raised. *)
Theorem load_layer_vector_first_then_raster :
  forall H (filename : string) (name : option string) w,
    let name' := if truthy_name name then default "" name
                 else fst (os_path.splitext (os_path.basename filename)) in
    let after_vector := log (CallVectorLayer filename name' "ogr") w in
    let after_raster := log (CallRasterLayer filename name') after_vector in
    let v := vector_valid H (journal w) filename "ogr" in
    let r := raster_valid H (journal after_vector) filename in
    let vector := {| layer_name := name'; layer_type := VectorLayer;
                     layer_source := filename; layer_provider := "ogr";
                     layer_isValid := true |} in
    let raster := {| layer_name := name'; layer_type := RasterLayer;
                     layer_source := filename; layer_provider := "gdal";
                     layer_isValid := true |} in
    (v = true -> load_layer H filename name w = (Return vector, after_vector))
    /\ (v = false -> r = true ->
          load_layer H filename name w = (Return raster, after_raster))
    /\ (v = false -> r = false ->
          load_layer H filename name w
          = (Raise (RuntimeError ("Could not load layer: " +:+ filename)), after_raster))
    /\ (forall e, fst (load_layer H filename name w) = Raise e ->
          e = RuntimeError ("Could not load layer: " +:+ filename))
    /\ ((exists e, fst (load_layer H filename name w) = Raise e)
        <-> v = false /\ r = false).
Proof.
  intros H filename name w. cbv zeta.
  unfold load_layer, bind, QgsVectorLayer, QgsRasterLayer, raise, ret.
  cbn [layer_isValid journal log].
  destruct (vector_valid H (journal w) filename "ogr") eqn:Hv; cbn [negb];
    [ | destruct (raster_valid H _ filename) eqn:Hr; cbn [negb] ].
  all: split; [ | split; [ | split; [ | split ] ] ].
  all: try (intros; discriminate); try (intros; reflexivity).
  all: try (intros e He; cbn in He; first [ discriminate | injection He as <-; reflexivity ]).
  all: split;
    [ intros [e He]; cbn in He; first [ discriminate | split; reflexivity ]
    | intros [Hv' Hr']; first [ discriminate | eexists; reflexivity ] ].
Qed.

Example load_layer_examples :
  (layer_type <$> match fst (load_layer Sample.host "/data/roads.shp" None Sample.world) with
                  | Return l => Some l | Raise _ => None end) = Some VectorLayer
  /\ fst (load_layer Sample.host "/data/dem.tif" None Sample.world)
     = Return {| layer_name := "dem"; layer_type := RasterLayer;
                 layer_source := "/data/dem.tif"; layer_provider := "gdal";
                 layer_isValid := true |}
  /\ fst (load_layer Sample.host "missing.file" None Sample.world)
     = Raise (RuntimeError "Could not load layer: missing.file").
Proof. repeat split; vm_compute; reflexivity. Qed.

(** *** The layer directory accessor *)

Lemma truthy_nonempty (s : string) : s <> "" -> PyStr.truthy s = true.
Proof. destruct s; [ congruence | reflexivity ]. Qed.

Lemma comprehension_re_match H pattern rx layers w :
  re_compile H pattern = Some rx ->
  comprehension (fun layer => re_match H pattern (layer_name layer)) layers w
  = (Return (name_matches rx layers), w).
Proof.
  intros Hrx. induction layers as [| x rest IH]; [ reflexivity | ].
  cbn [comprehension]. unfold bind at 1. unfold re_match at 1. rewrite Hrx.
  cbn [ret]. unfold bind at 1. rewrite IH. unfold ret, name_matches.
  rewrite filter_cons. destruct (rx (layer_name x)); cbn.
  - rewrite decide_True by exact I. reflexivity.
  - rewrite decide_False by (intros []). reflexivity.
Qed.

Lemma type_matches_no_types layers : type_matches [] layers = [].
Proof.
  unfold type_matches. induction layers as [| x rest IH]; [ reflexivity | ].
  rewrite filter_cons_False; [ exact IH | apply not_elem_of_nil ].
Qed.

(** With a non-empty pattern that compiles, the call evaluates both
    comprehensions over the same snapshot of the registry. *)
Lemma map_layers_name_and_types H name types rx w :
  PyStr.truthy name = true ->
  re_compile H name = Some rx ->
  map_layers H (Some name) (Some types) w
  = (Return (name_matches rx (registry w) ++ type_matches (type_set types) (registry w)), w).
Proof.
  intros Hname Hrx. unfold map_layers.
  unfold bind at 1. unfold mapLayers_values at 1. cbn [truthy_name].
  rewrite Hname. cbn [orb default].
  unfold bind at 1. rewrite (comprehension_re_match _ _ _ _ _ Hrx).
  destruct types as [t | [| t ts]]; cbn [truthy_types type_set default].
  - reflexivity.
  - rewrite type_matches_no_types, app_nil_r. reflexivity.
  - reflexivity.
Qed.

(** With an empty pattern the name filter is skipped, whatever the pattern
    would match. *)
Lemma map_layers_empty_name_and_types H t ts w :
  map_layers H (Some "") (Some (Types_list (t :: ts))) w
  = (Return (type_matches (t :: ts) (registry w)), w).
Proof. reflexivity. Qed.

(** C1, as the code has it: when a non-empty name pattern (a regular
    expression that compiles) and a type, or list of types, are both given,
    [map_layers] returns the layers of the registry whose name matches the
    pattern from its start, followed by the layers of the registry whose
    type is in the list: the two filters are concatenated, not
    intersected.  The host is left as it was. *)
Theorem map_layers_concatenates_both_filters :
  forall H (name : string) (types : TypesArg) (rx : string -> bool) (w : World),
    name <> "" ->
    re_compile H name = Some rx ->
    map_layers H (Some name) (Some types) w
    = (Return (concatenation_of_filters rx (type_set types) (registry w)), w).
Proof.
  intros H name types rx w Hname Hrx.
  unfold concatenation_of_filters.
  apply map_layers_name_and_types; [ apply truthy_nonempty | ]; assumption.
Qed.

Lemma map_layers_concatenates_both_filters_witness :
  ".*Bound.*" <> ""
  /\ exists rx,
       re_compile Sample.host ".*Bound.*" = Some rx
       /\ map_layers Sample.host (Some ".*Bound.*") (Some (Types_one RasterLayer)) Sample.world
          = (Return (concatenation_of_filters rx (type_set (Types_one RasterLayer))
                       (registry Sample.world)),
             Sample.world).
Proof.
  split; [ discriminate | ].
  eexists. split; [ reflexivity | ].
  apply (map_layers_concatenates_both_filters Sample.host ".*Bound.*"
           (Types_one RasterLayer) _ Sample.world); [ discriminate | reflexivity ].
Defined.

Example map_layers_bound_and_raster :
  fst (map_layers Sample.host (Some ".*Bound.*") (Some (Types_one RasterLayer)) Sample.world)
  = Return [Sample.city_bounds; Sample.dem].
Proof. vm_compute. reflexivity. Qed.

(** C1, as the specification states it, fails for the empty pattern: it is
    a pattern that matches every name, yet the call with it and the type
    list [[VectorLayer]] returns the type matches only. *)
Lemma map_layers_empty_pattern_not_concatenation :
  exists rx,
    re_compile Sample.host "" = Some rx
    /\ fst (map_layers Sample.host (Some "") (Some (Types_list [VectorLayer])) Sample.world)
       = Return [Sample.roads; Sample.city_bounds]
    /\ concatenation_of_filters rx [VectorLayer] (registry Sample.world)
       = [Sample.roads; Sample.dem; Sample.city_bounds; Sample.roads; Sample.city_bounds]
    /\ fst (map_layers Sample.host (Some "") (Some (Types_list [VectorLayer])) Sample.world)
       <> Return (concatenation_of_filters rx [VectorLayer] (registry Sample.world)).
Proof.
  eexists. split; [ reflexivity | ].
  split; [ vm_compute; reflexivity | ].
  split; [ vm_compute; reflexivity | ].
  vm_compute. discriminate.
Qed.

Lemma count_occ_filter_satisfying (P : Layer -> Prop) `{!forall x, Decision (P x)}
    (layers : list Layer) (l : Layer) :
  P l ->
  count_occ Layer_eq_dec (filter P layers) l = count_occ Layer_eq_dec layers l.
Proof.
  intros Hl. induction layers as [| x rest IH]; [ reflexivity | ].
  rewrite filter_cons. destruct (decide (P x)) as [Hx | Hx].
  - cbn [count_occ]. rewrite IH. reflexivity.
  - rewrite IH. rewrite count_occ_cons_neq; [ reflexivity | ].
    intros ->. contradiction.
Qed.

(** C10, as the code has it: when a non-empty name pattern (a regular
    expression that compiles) and a type, or list of types, are both given,
    a layer whose name matches and whose type is listed occurs in the
    result of [map_layers] twice for each time it occurs in the registry,
    once from each filter; if it is registered at all, the result has a
    duplicate. *)
Theorem map_layers_lists_double_matches_twice :
  forall H (name : string) (types : TypesArg) (rx : string -> bool) (w : World) (l : Layer),
    name <> "" ->
    re_compile H name = Some rx ->
    rx (layer_name l) = true ->
    layer_type l ∈ type_set types ->
    exists result,
      map_layers H (Some name) (Some types) w = (Return result, w)
      /\ count_occ Layer_eq_dec result l
         = (2 * count_occ Layer_eq_dec (registry w) l)%nat
      /\ (l ∈ registry w -> ~ NoDup result).
Proof.
  intros H name types rx w l Hname Hrx Hmatch Htype.
  eexists.
  split; [ apply map_layers_name_and_types; [ apply truthy_nonempty | ]; eassumption | ].
  assert (Hcount :
    count_occ Layer_eq_dec
      (name_matches rx (registry w) ++ type_matches (type_set types) (registry w)) l
    = (2 * count_occ Layer_eq_dec (registry w) l)%nat).
  { rewrite count_occ_app. unfold name_matches, type_matches.
    rewrite !count_occ_filter_satisfying; [ lia | assumption | ].
    rewrite Hmatch. exact I. }
  split; [ exact Hcount | ].
  intros Hin Hnodup.
  apply NoDup_app in Hnodup as (_ & Hdisjoint & _).
  apply (Hdisjoint l); apply list_elem_of_filter; split; try assumption.
  rewrite Hmatch. exact I.
Qed.

Lemma map_layers_lists_double_matches_twice_witness :
  ".*Bound.*" <> ""
  /\ layer_type Sample.city_bounds ∈ type_set (Types_list [VectorLayer])
  /\ exists rx,
       re_compile Sample.host ".*Bound.*" = Some rx
       /\ rx (layer_name Sample.city_bounds) = true
       /\ exists result,
            map_layers Sample.host (Some ".*Bound.*") (Some (Types_list [VectorLayer]))
              Sample.world = (Return result, Sample.world)
            /\ count_occ Layer_eq_dec result Sample.city_bounds
               = (2 * count_occ Layer_eq_dec (registry Sample.world) Sample.city_bounds)%nat
            /\ (Sample.city_bounds ∈ registry Sample.world -> ~ NoDup result).
Proof.
  split; [ discriminate | ].
  split; [ apply list_elem_of_here | ].
  eexists. split; [ reflexivity | ].
  split; [ reflexivity | ].
  eapply (map_layers_lists_double_matches_twice Sample.host ".*Bound.*"
            (Types_list [VectorLayer]));
    [ discriminate | reflexivity | reflexivity | apply list_elem_of_here ].
Defined.

Example map_layers_bound_and_vector :
  fst (map_layers Sample.host (Some ".*Bound.*") (Some (Types_list [VectorLayer])) Sample.world)
  = Return [Sample.city_bounds; Sample.roads; Sample.city_bounds].
Proof. vm_compute. reflexivity. Qed.

(** C10, as stated, fails for the empty pattern: the layer "roads" is
    registered, its name matches the pattern and its type is in the list,
    and the result holds it once. *)
Lemma map_layers_empty_pattern_lists_once :
  exists rx,
    re_compile Sample.host "" = Some rx
    /\ rx (layer_name Sample.roads) = true
    /\ layer_type Sample.roads ∈ [VectorLayer]
    /\ Sample.roads ∈ registry Sample.world
    /\ exists result,
         map_layers Sample.host (Some "") (Some (Types_list [VectorLayer])) Sample.world
         = (Return result, Sample.world)
         /\ count_occ Layer_eq_dec result Sample.roads = 1%nat
         /\ NoDup result.
Proof.
  eexists. split; [ reflexivity | ].
  split; [ reflexivity | ].
  split; [ apply list_elem_of_here | ].
  split; [ apply list_elem_of_here | ].
  eexists. split; [ reflexivity | ].
  split; [ vm_compute; reflexivity | ].
  apply (bool_decide_unpack _). vm_compute. exact I.
Qed.

(** *** Global names the module does not bind *)

(** The module imports [QtCore], defines [GEOM_TYPE_MAP] at top level and
    names its general constructor [new_vector_layer]; it binds none of
    [QTCore], [self], [newVectorLayer]. *)
Lemma names_the_module_binds :
  ("QtCore" ∈ module_names /\ "QTCore" ∉ module_names)
  /\ ("GEOM_TYPE_MAP" ∈ module_names /\ "self" ∉ module_names)
  /\ ("new_vector_layer" ∈ module_names /\ "newVectorLayer" ∉ module_names).
Proof. repeat split; decide_by_computation. Qed.

Lemma load_global_unbound H n w :
  n ∉ ambient H -> load_global H n w = (Raise (NameError n), w).
Proof.
  intros Hn. unfold load_global. rewrite bool_decide_eq_false_2 by assumption.
  reflexivity.
Qed.

(** C3: on a host that binds no global [QTCore] (the module imports
    [QtCore]), every call of [load_layer_no_crs_dialog] raises
    [NameError] at its first statement: the setting
    '/Projections/defaultBehaviour' is neither read nor written and no
    layer is loaded. *)
Theorem load_layer_no_crs_dialog_raises_NameError :
  forall H (filename : string) (name : option string) (w : World),
    "QTCore" ∉ ambient H ->
    load_layer_no_crs_dialog H filename name w = (Raise (NameError "QTCore"), w).
Proof.
  intros H filename name w Hunbound. unfold load_layer_no_crs_dialog.
  apply bind_Raise, load_global_unbound, Hunbound.
Qed.

Lemma load_layer_no_crs_dialog_raises_NameError_witness :
  ("QTCore" ∉ ambient Sample.host)
  /\ load_layer_no_crs_dialog Sample.host "/data/roads.shp" None Sample.world
     = (Raise (NameError "QTCore"), Sample.world).
Proof.
  assert (Hunbound : "QTCore" ∉ ambient Sample.host) by decide_by_computation.
  split; [ exact Hunbound | ].
  apply (load_layer_no_crs_dialog_raises_NameError Sample.host "/data/roads.shp" None
           Sample.world Hunbound).
Defined.

(** C4: on a host that binds no global [self], every call of
    [new_vector_layer] without a file name raises [NameError] where it
    looks up the geometry label ([self.GEOM_TYPE_MAP] in a function that
    has no [self]): no descriptor is built and no memory layer is
    created. *)
Theorem new_vector_layer_memory_raises_NameError :
  forall H (fields : FieldsArg) (geometryType : WkbType) (crs : CrsArg)
         (encoding : string) (w : World),
    "self" ∉ ambient H ->
    new_vector_layer H None fields geometryType crs encoding w
    = (Raise (NameError "self"), w).
Proof.
  intros H fields geometryType crs encoding w Hunbound. unfold new_vector_layer.
  destruct crs as [c | authid].
  - rewrite (bind_Return _ _ w c w) by reflexivity.
    apply bind_Raise, load_global_unbound, Hunbound.
  - rewrite (bind_Return _ _ w (crs_from_string H authid) w) by reflexivity.
    apply bind_Raise, load_global_unbound, Hunbound.
Qed.

Lemma new_vector_layer_memory_raises_NameError_witness :
  ("self" ∉ ambient Sample.host)
  /\ new_vector_layer Sample.host None (Fields_list []) WKBPoint
       (Crs_object Sample.wgs84) "utf-8" Sample.world
     = (Raise (NameError "self"), Sample.world).
Proof.
  assert (Hunbound : "self" ∉ ambient Sample.host) by decide_by_computation.
  split; [ exact Hunbound | ].
  apply (new_vector_layer_memory_raises_NameError Sample.host (Fields_list []) WKBPoint
           (Crs_object Sample.wgs84) "utf-8" Sample.world Hunbound).
Defined.

(** C9: on a host that binds no global [newVectorLayer] (the module's
    function is [new_vector_layer]), each of [new_points_layer],
    [new_lines_layer] and [new_polygons_layer] raises [NameError] for
    every argument list, and the host is left as it was: none of them
    reaches the general layer-creation function. *)
Theorem new_layer_wrappers_raise_NameError :
  forall H (filename : option string) (fields : FieldsArg) (crs : CrsArg)
         (encoding : string) (w : World),
    "newVectorLayer" ∉ ambient H ->
    new_points_layer H filename fields crs encoding w
    = (Raise (NameError "newVectorLayer"), w)
    /\ new_lines_layer H filename fields crs encoding w
       = (Raise (NameError "newVectorLayer"), w)
    /\ new_polygons_layer H filename fields crs encoding w
       = (Raise (NameError "newVectorLayer"), w).
Proof.
  intros H filename fields crs encoding w Hunbound.
  unfold new_points_layer, new_lines_layer, new_polygons_layer.
  repeat split; apply bind_Raise, load_global_unbound, Hunbound.
Qed.

Lemma new_layer_wrappers_raise_NameError_witness :
  ("newVectorLayer" ∉ ambient Sample.host)
  /\ (new_points_layer Sample.host (Some "/tmp/out.shp") (Fields_list [])
        (Crs_object Sample.wgs84) "utf-8" Sample.world
      = (Raise (NameError "newVectorLayer"), Sample.world)
      /\ new_lines_layer Sample.host (Some "/tmp/out.shp") (Fields_list [])
           (Crs_object Sample.wgs84) "utf-8" Sample.world
         = (Raise (NameError "newVectorLayer"), Sample.world)
      /\ new_polygons_layer Sample.host (Some "/tmp/out.shp") (Fields_list [])
           (Crs_object Sample.wgs84) "utf-8" Sample.world
         = (Raise (NameError "newVectorLayer"), Sample.world)).
Proof.
  assert (Hunbound : "newVectorLayer" ∉ ambient Sample.host) by decide_by_computation.
  split; [ exact Hunbound | ].
  apply (new_layer_wrappers_raise_NameError Sample.host (Some "/tmp/out.shp")
           (Fields_list []) (Crs_object Sample.wgs84) "utf-8" Sample.world Hunbound).
Defined.

(** The general function, called with the arguments the point wrapper
    would pass, does create the layer. *)
Example new_vector_layer_same_arguments :
  fst (new_vector_layer Sample.host (Some "/tmp/out.shp") (Fields_list []) WKBPoint
         (Crs_object Sample.wgs84) "utf-8" Sample.world)
  = Return {| layer_name := "out.shp"; layer_type := VectorLayer;
              layer_source := "/tmp/out.shp"; layer_provider := "ogr";
              layer_isValid := true |}.
Proof. vm_compute. reflexivity. Qed.

(** [QGis] has no member [WKBLine]: were [newVectorLayer] bound, the line
    wrapper would stop at its third argument. *)
Example QGis_has_no_WKBLine :
  forall w, QGis_attr "WKBLine" w = (Raise (AttributeError "WKBLine"), w)
            /\ QGis_attr "WKBLineString" w = (Return WKBLineString, w).
Proof. intros w. split; reflexivity. Qed.

(** ** Further properties of the module *)

(** *** [map_layers]: one filter, no filter, errors *)

Lemma comprehension_re_match_invalid H pattern x rest w :
  re_compile H pattern = None ->
  comprehension (fun layer => re_match H pattern (layer_name layer)) (x :: rest) w
  = (Raise (ReError pattern), w).
Proof.
  intros Hrx. cbn [comprehension]. apply bind_Raise.
  unfold re_match. rewrite Hrx. reflexivity.
Qed.

Lemma map_layers_with_name H name types rx w :
  name <> "" ->
  re_compile H name = Some rx ->
  map_layers H (Some name) types w
  = (Return (name_matches rx (registry w) ++ type_matches_of types (registry w)), w).
Proof.
  intros Hname Hrx. destruct types as [types |].
  - apply map_layers_name_and_types; [ apply truthy_nonempty | ]; assumption.
  - unfold map_layers. unfold bind at 1. unfold mapLayers_values at 1.
    cbn [truthy_name]. rewrite (truthy_nonempty _ Hname). cbn [orb default].
    unfold bind at 1. rewrite (comprehension_re_match _ _ _ _ _ Hrx).
    cbn [truthy_types type_matches_of]. rewrite app_nil_r. reflexivity.
Qed.

Lemma map_layers_with_invalid_name H name types w :
  name <> "" ->
  re_compile H name = None ->
  map_layers H (Some name) types w
  = match registry w with
    | [] => (Return (type_matches_of types []), w)
    | _ :: _ => (Raise (ReError name), w)
    end.
Proof.
  intros Hname Hrx. unfold map_layers.
  unfold bind at 1. unfold mapLayers_values at 1.
  cbn [truthy_name]. rewrite (truthy_nonempty _ Hname). cbn [orb default].
  destruct (registry w) as [| x rest].
  - destruct types as [[t | [| t ts]] |]; reflexivity.
  - apply bind_Raise, comprehension_re_match_invalid, Hrx.
Qed.

Lemma map_layers_without_name H name types w :
  truthy_name name = false ->
  map_layers H name types w
  = (Return (match types with
             | Some t => match type_set t with
                         | [] => registry w
                         | _ :: _ => type_matches (type_set t) (registry w)
                         end
             | None => registry w
             end), w).
Proof.
  intros Hname. unfold map_layers.
  unfold bind at 1. unfold mapLayers_values at 1. rewrite Hname.
  destruct types as [[t | [| t ts]] |]; reflexivity.
Qed.

(** X1: With no name, or the empty name, and no type, or the empty list of
    types, [map_layers] returns every registered layer, in the registry's
    order: an empty list of types selects everything, not nothing. *)
Theorem map_layers_without_filters_returns_all :
  forall H (w : World),
    map_layers H None None w = (Return (registry w), w)
    /\ map_layers H (Some "") None w = (Return (registry w), w)
    /\ map_layers H None (Some (Types_list [])) w = (Return (registry w), w)
    /\ map_layers H (Some "") (Some (Types_list [])) w = (Return (registry w), w).
Proof. intros H w. repeat split. Qed.

(** X2: With a non-empty name pattern that compiles and no type (or the empty
    list of types), [map_layers] returns exactly the registered layers
    whose name the pattern matches from its start, in the registry's
    order. *)
Theorem map_layers_name_only :
  forall H (name : string) (rx : string -> bool) (w : World),
    name <> "" ->
    re_compile H name = Some rx ->
    exists result,
      map_layers H (Some name) None w = (Return result, w)
      /\ map_layers H (Some name) (Some (Types_list [])) w = (Return result, w)
      /\ result `sublist_of` registry w
      /\ forall l, l ∈ result <-> l ∈ registry w /\ rx (layer_name l) = true.
Proof.
  intros H name rx w Hname Hrx. exists (name_matches rx (registry w)).
  rewrite !(map_layers_with_name _ _ _ _ _ Hname Hrx).
  cbn [type_matches_of type_set]. rewrite type_matches_no_types, app_nil_r.
  split; [ reflexivity | ]. split; [ reflexivity | ].
  split; [ apply sublist_filter | ].
  intros l. unfold name_matches. rewrite list_elem_of_filter, Is_true_true. tauto.
Qed.

Lemma map_layers_name_only_witness :
  ".*Bound.*" <> ""
  /\ exists rx,
       re_compile Sample.host ".*Bound.*" = Some rx
       /\ exists result,
            map_layers Sample.host (Some ".*Bound.*") None Sample.world
            = (Return result, Sample.world)
            /\ map_layers Sample.host (Some ".*Bound.*") (Some (Types_list [])) Sample.world
               = (Return result, Sample.world)
            /\ result `sublist_of` registry Sample.world
            /\ forall l, l ∈ result <->
                         l ∈ registry Sample.world /\ rx (layer_name l) = true.
Proof.
  split; [ discriminate | ].
  eexists. split; [ reflexivity | ].
  eapply (map_layers_name_only Sample.host ".*Bound.*");
    [ discriminate | reflexivity ].
Defined.

Example map_layers_test_script :
  fst (map_layers Sample.host (Some ".*Bound.*") None Sample.world)
  = Return [Sample.city_bounds].
Proof. vm_compute. reflexivity. Qed.

(** X3: With no name, or the empty name, and at least one type, [map_layers]
    returns exactly the registered layers whose type is listed, in the
    registry's order; the pattern matcher is not consulted. *)
Theorem map_layers_types_only :
  forall H (name : option string) (types : TypesArg) (w : World),
    truthy_name name = false ->
    type_set types <> [] ->
    map_layers H name (Some types) w
    = (Return (type_matches (type_set types) (registry w)), w)
    /\ type_matches (type_set types) (registry w) `sublist_of` registry w
    /\ forall l, l ∈ type_matches (type_set types) (registry w)
                 <-> l ∈ registry w /\ layer_type l ∈ type_set types.
Proof.
  intros H name types w Hname Htypes.
  rewrite (map_layers_without_name _ _ _ _ Hname).
  destruct (type_set types) as [| t ts] eqn:Hts; [ congruence | ].
  split; [ reflexivity | ].
  split; [ apply sublist_filter | ].
  intros l. unfold type_matches. rewrite list_elem_of_filter. tauto.
Qed.

Lemma map_layers_types_only_witness :
  truthy_name (Some "") = false
  /\ type_set (Types_one RasterLayer) <> []
  /\ (map_layers Sample.host (Some "") (Some (Types_one RasterLayer)) Sample.world
      = (Return (type_matches (type_set (Types_one RasterLayer)) (registry Sample.world)),
         Sample.world)
      /\ type_matches (type_set (Types_one RasterLayer)) (registry Sample.world)
           `sublist_of` registry Sample.world
      /\ forall l, l ∈ type_matches (type_set (Types_one RasterLayer)) (registry Sample.world)
                   <-> l ∈ registry Sample.world
                       /\ layer_type l ∈ type_set (Types_one RasterLayer)).
Proof.
  split; [ reflexivity | ].
  split; [ discriminate | ].
  apply (map_layers_types_only Sample.host (Some "") (Types_one RasterLayer) Sample.world);
    [ reflexivity | discriminate ].
Defined.

(** X4: A single type and the one-element list holding it are the same
    argument to [map_layers], whatever the name and the host. *)
Theorem map_layers_single_type_is_singleton_list :
  forall H (name : option string) (t : LayerType) (w : World),
    map_layers H name (Some (Types_one t)) w
    = map_layers H name (Some (Types_list [t])) w.
Proof. intros H name t w. reflexivity. Qed.

(** X5: [map_layers] raises exactly when a non-empty name is given that is not
    a regular expression and at least one layer is registered; what it
    raises is then the error of [re] for that pattern.  With an empty
    registry the pattern is never compiled. *)
Theorem map_layers_raises_only_for_bad_pattern :
  forall H (name : option string) (types : option TypesArg) (w : World) (e : PyExc),
    fst (map_layers H name types w) = Raise e
    <-> exists p, name = Some p /\ p <> "" /\ re_compile H p = None
                  /\ registry w <> [] /\ e = ReError p.
Proof.
  intros H name types w e.
  destruct (truthy_name name) eqn:Hname.
  - destruct name as [p |]; [ | discriminate ].
    assert (Hp : p <> "") by (intros ->; discriminate).
    destruct (re_compile H p) as [rx |] eqn:Hrx.
    + rewrite (map_layers_with_name _ _ _ _ _ Hp Hrx). cbn. split; [ discriminate | ].
      intros (p' & [= <-] & _ & Hnone & _). congruence.
    + rewrite (map_layers_with_invalid_name _ _ _ _ Hp Hrx).
      destruct (registry w) as [| x rest]; cbn.
      * split; [ discriminate | ]. intros (p' & _ & _ & _ & Hreg & _). congruence.
      * split.
        -- intros [= <-]. exists p. repeat split; assumption || discriminate.
        -- intros (p' & [= <-] & _ & _ & _ & ->). reflexivity.
  - rewrite (map_layers_without_name _ _ _ _ Hname). cbn. split; [ discriminate | ].
    intros (p & -> & Hp & _). destruct p; [ congruence | discriminate ].
Qed.

(** X6: [map_layers] is a query: whatever its arguments and its outcome, the
    registry, the settings and the journal of host calls are as before, and
    every layer it returns is a registered layer. *)
Theorem map_layers_reads_only :
  forall H (name : option string) (types : option TypesArg) (w : World),
    snd (map_layers H name types w) = w
    /\ forall result, fst (map_layers H name types w) = Return result ->
                      forall l, l ∈ result -> l ∈ registry w.
Proof.
  intros H name types w.
  destruct (truthy_name name) eqn:Hname.
  - destruct name as [p |]; [ | discriminate ].
    assert (Hp : p <> "") by (intros ->; discriminate).
    destruct (re_compile H p) as [rx |] eqn:Hrx.
    + rewrite (map_layers_with_name _ _ _ _ _ Hp Hrx). cbn.
      split; [ reflexivity | ]. intros result [= <-] l.
      rewrite elem_of_app. unfold name_matches, type_matches_of, type_matches.
      intros [Hl | Hl].
      * apply list_elem_of_filter in Hl as [_ Hl]. assumption.
      * destruct types; [ | inversion Hl ].
        apply list_elem_of_filter in Hl as [_ Hl]. assumption.
    + rewrite (map_layers_with_invalid_name _ _ _ _ Hp Hrx).
      destruct (registry w) as [| x rest]; cbn.
      * split; [ reflexivity | ]. intros result [= <-] l.
        destruct types; cbn; intros Hl; inversion Hl.
      * split; [ reflexivity | discriminate ].
  - rewrite (map_layers_without_name _ _ _ _ Hname). cbn.
    split; [ reflexivity | ]. intros result [= <-] l.
    destruct types as [t |]; [ | auto ].
    destruct (type_set t); [ auto | ].
    intros [_ Hl]%list_elem_of_filter. assumption.
Qed.

(** *** [layer_from_name]: lookup of a registered layer *)

Lemma first_named_unique name layers l :
  NoDup (layer_name <$> layers) ->
  l ∈ layers ->
  layer_name l = name ->
  first_named name layers = Some l.
Proof.
  induction layers as [| x rest IH]; intros Hnodup Hin Hname.
  - inversion Hin.
  - cbn in Hnodup. apply NoDup_cons in Hnodup as [Hx Hrest]. cbn.
    apply elem_of_cons in Hin as [-> | Hin].
    + rewrite bool_decide_eq_true_2 by assumption. reflexivity.
    + rewrite bool_decide_eq_false_2; [ apply IH; assumption | ].
      intros Hxname. apply Hx. apply list_elem_of_fmap.
      exists l. split; [ congruence | assumption ].
Qed.

(** X7: When the registered layers have pairwise different names, looking a
    registered layer up by its own name returns that very layer. *)
Theorem layer_from_name_finds_registered_layer :
  forall (w : World) (l : Layer),
    NoDup (layer_name <$> registry w) ->
    l ∈ registry w ->
    layer_from_name (layer_name l) w = (Return (Some l), w).
Proof.
  intros w l Hnodup Hin. unfold layer_from_name, bind, mapLayers_values, ret.
  rewrite (first_named_unique (layer_name l) (registry w) l Hnodup Hin eq_refl).
  reflexivity.
Qed.

Lemma layer_from_name_finds_registered_layer_witness :
  NoDup (layer_name <$> registry Sample.world)
  /\ Sample.dem ∈ registry Sample.world
  /\ layer_from_name (layer_name Sample.dem) Sample.world
     = (Return (Some Sample.dem), Sample.world).
Proof.
  assert (Hnodup : NoDup (layer_name <$> registry Sample.world))
    by decide_by_computation.
  assert (Hin : Sample.dem ∈ registry Sample.world) by decide_by_computation.
  split; [ exact Hnodup | ]. split; [ exact Hin | ].
  apply (layer_from_name_finds_registered_layer Sample.world Sample.dem Hnodup Hin).
Defined.

(** *** [load_layer] and [load_vector] *)

(** X8: A layer that [load_layer] returns is valid, was opened from the given
    path, and is named as asked, or, when no name or the empty name is
    given, by the base name of the path without its extension. *)
Theorem load_layer_returns_valid_named_layer :
  forall H (filename : string) (name : option string) (w w' : World) (layer : Layer),
    load_layer H filename name w = (Return layer, w') ->
    layer_isValid layer = true
    /\ layer_source layer = filename
    /\ layer_name layer
       = match name with
         | Some (String c s) => String c s
         | _ => fst (os_path.splitext (os_path.basename filename))
         end.
Proof.
  intros H filename name w w' layer.
  unfold load_layer, bind, QgsVectorLayer, QgsRasterLayer, raise, ret.
  cbn [layer_isValid journal log].
  destruct (vector_valid H (journal w) filename "ogr") eqn:Hv; cbn [negb];
    [ | destruct (raster_valid H _ filename) eqn:Hr; cbn [negb] ].
  all: intros Heq; inversion Heq; subst; clear Heq; cbn.
  all: destruct name as [[| c s] |]; repeat split; reflexivity.
Qed.

Lemma load_layer_returns_valid_named_layer_witness :
  load_layer Sample.host "/data/dem.tif" None Sample.world
  = (Return Sample.dem,
     log (CallRasterLayer "/data/dem.tif" "dem")
       (log (CallVectorLayer "/data/dem.tif" "dem" "ogr") Sample.world))
  /\ (layer_isValid Sample.dem = true
      /\ layer_source Sample.dem = "/data/dem.tif"
      /\ layer_name Sample.dem
         = fst (os_path.splitext (os_path.basename "/data/dem.tif"))).
Proof.
  assert (Hload :
    load_layer Sample.host "/data/dem.tif" None Sample.world
    = (Return Sample.dem,
       log (CallRasterLayer "/data/dem.tif" "dem")
         (log (CallVectorLayer "/data/dem.tif" "dem" "ogr") Sample.world)))
    by (vm_compute; reflexivity).
  split; [ exact Hload | ].
  apply (load_layer_returns_valid_named_layer Sample.host "/data/dem.tif" None
           Sample.world _ Sample.dem Hload).
Defined.

(** X9: [load_layer] opens, it does not register: whatever the outcome, the
    registry and the settings are as before, and the host has received
    the call that opens the vector layer, followed at most by the call
    that opens the raster layer.  An empty name is the same as no name. *)
Theorem load_layer_does_not_register :
  forall H (filename : string) (name : option string) (w : World),
    let w' := snd (load_layer H filename name w) in
    let name' := match name with
                 | Some (String c s) => String c s
                 | _ => fst (os_path.splitext (os_path.basename filename))
                 end in
    registry w' = registry w
    /\ settings w' = settings w
    /\ (journal w' = journal w ++ [CallVectorLayer filename name' "ogr"]
        \/ journal w' = journal w ++ [CallVectorLayer filename name' "ogr";
                                      CallRasterLayer filename name'])
    /\ load_layer H filename (Some "") w = load_layer H filename None w.
Proof.
  intros H filename name w. cbv zeta.
  unfold load_layer, bind, QgsVectorLayer, QgsRasterLayer, raise, ret.
  cbn [layer_isValid journal log].
  assert (Hname :
    (if truthy_name name then default "" name
     else fst (os_path.splitext (os_path.basename filename)))
    = match name with
      | Some (String c s) => String c s
      | _ => fst (os_path.splitext (os_path.basename filename))
      end) by (destruct name as [[| c s] |]; reflexivity).
  rewrite Hname.
  destruct (vector_valid H (journal w) filename "ogr") eqn:Hv; cbn [negb];
    [ | destruct (raster_valid H _ filename) eqn:Hr; cbn [negb] ].
  all: cbn; rewrite <- ?app_assoc; cbn; repeat split; auto.
Qed.

(** X10: [load_vector] never raises and never looks at the validity of what it
    opened: it makes the one call that opens the vector layer and returns
    the handle, valid or not, named as asked or, by default, by the base
    name of the path with its extension.  Where [load_layer] fails,
    [load_vector] with the same path returns an invalid handle. *)
Theorem load_vector_never_raises :
  forall H (path : string) (name : option string) (provider : string) (w : World),
    let name' := match name with
                 | Some (String c s) => String c s
                 | _ => os_path.basename path
                 end in
    load_vector H path name provider w
    = (Return {| layer_name := name'; layer_type := VectorLayer;
                 layer_source := path; layer_provider := provider;
                 layer_isValid := vector_valid H (journal w) path provider |},
       log (CallVectorLayer path name' provider) w)
    /\ ((exists e, fst (load_layer H path name w) = Raise e) ->
        exists layer, fst (load_vector H path name "ogr" w) = Return layer
                      /\ layer_isValid layer = false).
Proof.
  intros H path name provider w. cbv zeta.
  split.
  - unfold load_vector. destruct name as [[| c s] |]; reflexivity.
  - intros [e He]. eexists. unfold load_vector. split; [ reflexivity | ].
    cbn. revert He.
    unfold load_layer, bind, QgsVectorLayer, QgsRasterLayer, raise, ret.
    cbn [layer_isValid journal log].
    destruct (vector_valid H (journal w) path "ogr"); cbn; [ discriminate | reflexivity ].
Qed.

(** X11: For a path that opens as a vector layer and a non-empty name,
    [load_vector] with the provider "ogr" and [load_layer] are the same
    computation. *)
Theorem load_vector_agrees_with_load_layer :
  forall H (path name : string) (w : World),
    name <> "" ->
    vector_valid H (journal w) path "ogr" = true ->
    load_vector H path (Some name) "ogr" w = load_layer H path (Some name) w.
Proof.
  intros H path name w Hname Hvalid.
  unfold load_vector, load_layer, bind, QgsVectorLayer, ret. cbn [truthy_name].
  rewrite (truthy_nonempty _ Hname). cbn [negb default layer_isValid].
  rewrite Hvalid. reflexivity.
Qed.

Lemma load_vector_agrees_with_load_layer_witness :
  "roads" <> ""
  /\ vector_valid Sample.host (journal Sample.world) "/data/roads.shp" "ogr" = true
  /\ load_vector Sample.host "/data/roads.shp" (Some "roads") "ogr" Sample.world
     = load_layer Sample.host "/data/roads.shp" (Some "roads") Sample.world.
Proof.
  split; [ discriminate | ]. split; [ reflexivity | ].
  apply (load_vector_agrees_with_load_layer Sample.host "/data/roads.shp" "roads"
           Sample.world); [ discriminate | reflexivity ].
Defined.

(** *** The table of output drivers *)

Lemma append_cons (a : ascii) (s t : string) :
  String a s +:+ t = String a (s +:+ t).
Proof. reflexivity. Qed.

Lemma append_empty (t : string) : "" +:+ t = t.
Proof. reflexivity. Qed.

Lemma length_append (s t : string) :
  String.length (s +:+ t) = (String.length s + String.length t)%nat.
Proof.
  induction s as [| a s IH]; [ reflexivity | ].
  rewrite append_cons. cbn [String.length]. rewrite IH. reflexivity.
Qed.

Lemma prefix_append (s t : string) : String.prefix s (s +:+ t) = true.
Proof.
  induction s as [| a s IH]; [ destruct t; reflexivity | ].
  rewrite append_cons. cbn [String.prefix].
  destruct (ascii_dec a a); [ exact IH | congruence ].
Qed.

Lemma find_nat_after (c : ascii) (sub pre tail : string) :
  c ∉ chars pre ->
  PyStr.find_nat (String c sub) (pre +:+ String c sub +:+ tail)
  = Some (String.length pre).
Proof.
  induction pre as [| a pre IH]; intros Hpre.
  - rewrite append_empty.
    change (String c sub +:+ tail) with (String c (sub +:+ tail)).
    cbn [PyStr.find_nat String.prefix].
    destruct (ascii_dec c c); [ | congruence ].
    rewrite prefix_append. reflexivity.
  - unfold chars in Hpre. cbn [String.list_ascii_of_string] in Hpre.
    apply not_elem_of_cons in Hpre as [Hca Hpre].
    rewrite append_cons. cbn [PyStr.find_nat String.prefix].
    destruct (ascii_dec c a); [ contradiction | ].
    rewrite (IH Hpre). reflexivity.
Qed.

Lemma find_nat_absent (c : ascii) (sub s : string) :
  c ∉ chars s -> PyStr.find_nat (String c sub) s = None.
Proof.
  induction s as [| a s IH]; intros Hs; [ reflexivity | ].
  unfold chars in Hs. cbn [String.list_ascii_of_string] in Hs.
  apply not_elem_of_cons in Hs as [Hca Hs].
  cbn [PyStr.find_nat String.prefix].
  destruct (ascii_dec c a); [ contradiction | ].
  rewrite (IH Hs). reflexivity.
Qed.

Lemma drop_append (pre s : string) :
  PyStr.drop (String.length pre) (pre +:+ s) = s.
Proof. induction pre as [| a pre IH]; [ reflexivity | exact IH ]. Qed.

Lemma take_append (s t : string) :
  PyStr.take (String.length s) (s +:+ t) = s.
Proof.
  induction s as [| a s IH]; [ reflexivity | ].
  rewrite append_cons. cbn [String.length PyStr.take]. rewrite IH. reflexivity.
Qed.

Lemma chars_append (s t : string) : chars (s +:+ t) = chars s ++ chars t.
Proof.
  induction s as [| a s IH]; [ reflexivity | ].
  rewrite append_cons. unfold chars in *. cbn [String.list_ascii_of_string].
  rewrite IH. reflexivity.
Qed.

Lemma clip_nonnegative (s : string) (k : nat) :
  (k <= String.length s)%nat -> PyStr.clip s (Z.of_nat k) = k.
Proof.
  intros Hk. unfold PyStr.clip, PyStr.len.
  destruct (Z.ltb_spec (Z.of_nat k) 0); lia.
Qed.

Lemma clip_minus_one (s : string) :
  PyStr.clip s (-1) = (String.length s - 1)%nat.
Proof. unfold PyStr.clip, PyStr.len. cbn. lia. Qed.

Lemma drop_append_plus (pre s : string) (n : nat) :
  PyStr.drop (String.length pre + n) (pre +:+ s) = PyStr.drop n s.
Proof. induction pre as [| a pre IH]; [ reflexivity | exact IH ]. Qed.

Lemma slice_after_star_dot (pre tail : string) :
  "*"%char ∉ chars pre ->
  PyStr.slice_from (pre +:+ "*." +:+ tail) (PyStr.find (pre +:+ "*." +:+ tail) "*." + 2)
  = tail.
Proof.
  intros Hpre. unfold PyStr.find, PyStr.slice_from.
  rewrite (find_nat_after "*" "." pre tail Hpre). cbn [PyStr.index_or_minus1].
  replace (Z.of_nat (String.length pre) + 2) with (Z.of_nat (String.length pre + 2))
    by lia.
  rewrite clip_nonnegative.
  - rewrite drop_append_plus. reflexivity.
  - rewrite !length_append. cbn. lia.
Qed.

Lemma slice_before_space (ext rest : string) :
  " "%char ∉ chars ext ->
  PyStr.slice_to (ext +:+ " " +:+ rest) (PyStr.find (ext +:+ " " +:+ rest) " ") = ext.
Proof.
  intros Hext. unfold PyStr.find, PyStr.slice_to.
  rewrite (find_nat_after " " "" ext rest Hext). cbn [PyStr.index_or_minus1].
  rewrite clip_nonnegative by (rewrite length_append; lia).
  apply take_append.
Qed.

Lemma slice_without_space (ext : string) (c : ascii) :
  " "%char ∉ chars (ext +:+ String c "") ->
  PyStr.slice_to (ext +:+ String c "") (PyStr.find (ext +:+ String c "") " ") = ext.
Proof.
  intros Hext. unfold PyStr.find, PyStr.slice_to.
  rewrite (find_nat_absent " " "" _ Hext). cbn [PyStr.index_or_minus1].
  rewrite clip_minus_one, length_append. cbn [String.length].
  replace (String.length ext + 1 - 1)%nat with (String.length ext) by lia.
  apply take_append.
Qed.

(** X12: The extension that the loop over [formats] reads from a filter string:
    when the text before the first "*." holds no star, it is the text
    between that "*." and the next space, and, when no space follows at
    all, the text after "*." less its last character.  So both
    "ESRI Shapefile (*.shp *.SHP)" and "ESRI Shapefile (*.shp)" give
    "shp". *)
Theorem filter_extension_reads_first_pattern :
  forall (pre ext rest : string) (c : ascii),
    "*"%char ∉ chars pre ->
    " "%char ∉ chars ext ->
    filter_extension (pre +:+ "*." +:+ ext +:+ " " +:+ rest) = ext
    /\ (c <> " "%char -> filter_extension (pre +:+ "*." +:+ ext +:+ String c "") = ext).
Proof.
  intros pre ext rest c Hpre Hext. unfold filter_extension. cbv zeta. split.
  - rewrite (slice_after_star_dot pre (ext +:+ " " +:+ rest) Hpre).
    apply slice_before_space, Hext.
  - intros Hc. rewrite (slice_after_star_dot pre (ext +:+ String c "") Hpre).
    apply slice_without_space. rewrite chars_append.
    intros [Hin | Hin]%elem_of_app; [ contradiction | ].
    apply list_elem_of_singleton in Hin. congruence.
Qed.

Lemma filter_extension_reads_first_pattern_witness :
  ("*"%char ∉ chars "ESRI Shapefile [OGR] (")
  /\ (" "%char ∉ chars "shp")
  /\ filter_extension ("ESRI Shapefile [OGR] (" +:+ "*." +:+ "shp" +:+ " " +:+ "*.SHP)")
     = "shp"
  /\ (")"%char <> " "%char ->
      filter_extension ("ESRI Shapefile [OGR] (" +:+ "*." +:+ "shp" +:+ String ")" "")
      = "shp").
Proof.
  assert (Hpre : "*"%char ∉ chars "ESRI Shapefile [OGR] (") by decide_by_computation.
  assert (Hext : " "%char ∉ chars "shp") by decide_by_computation.
  split; [ exact Hpre | ]. split; [ exact Hext | ].
  apply (filter_extension_reads_first_pattern "ESRI Shapefile [OGR] (" "shp" "*.SHP)"
           ")" Hpre Hext).
Defined.

Lemma OGRCodes_of_snoc (formats : list (string * string)) (key value : string) :
  OGRCodes_of (formats ++ [(key, value)])
  = <[filter_extension key := value]> (OGRCodes_of formats).
Proof. unfold OGRCodes_of. rewrite fold_left_app. reflexivity. Qed.

Lemma OGRCodes_lookup_from_format (formats : list (string * string)) ext driverName :
  OGRCodes_of formats !! ext = Some driverName ->
  exists key, (key, driverName) ∈ formats /\ filter_extension key = ext.
Proof.
  revert ext driverName.
  induction formats as [| [key value] formats IH] using rev_ind;
    intros ext driverName Hlookup.
  - unfold OGRCodes_of in Hlookup. cbn in Hlookup.
    rewrite lookup_empty in Hlookup. discriminate.
  - rewrite OGRCodes_of_snoc in Hlookup.
    destruct (decide (filter_extension key = ext)) as [Heq | Hne].
    + rewrite Heq, lookup_insert_eq in Hlookup. injection Hlookup as <-.
      exists key. split; [ apply elem_of_app; right; apply list_elem_of_here | exact Heq ].
    + rewrite lookup_insert_ne in Hlookup by assumption.
      destruct (IH _ _ Hlookup) as (key' & Hin & Hext).
      exists key'. split; [ apply elem_of_app; left; exact Hin | exact Hext ].
Qed.

Lemma OGRCodes_format_present (formats : list (string * string)) key value :
  (key, value) ∈ formats ->
  is_Some (OGRCodes_of formats !! filter_extension key).
Proof.
  revert key value.
  induction formats as [| [key' value'] formats IH] using rev_ind;
    intros key value Hin.
  - inversion Hin.
  - rewrite OGRCodes_of_snoc.
    destruct (decide (filter_extension key' = filter_extension key)) as [Heq | Hne].
    + rewrite Heq, lookup_insert_eq. eauto.
    + rewrite lookup_insert_ne by assumption.
      apply elem_of_app in Hin as [Hin | Hin]; [ eapply IH; exact Hin | ].
      apply list_elem_of_singleton in Hin. injection Hin as -> ->. congruence.
Qed.

Lemma OGRCodes_last_format (before after : list (string * string)) key driverName :
  (forall key' value', (key', value') ∈ after ->
                       filter_extension key' <> filter_extension key) ->
  OGRCodes_of (before ++ (key, driverName) :: after) !! filter_extension key
  = Some driverName.
Proof.
  induction after as [| [key' value'] after IH] using rev_ind; intros Hafter.
  - rewrite OGRCodes_of_snoc. apply lookup_insert_eq.
  - replace (before ++ (key, driverName) :: after ++ [(key', value')])
      with ((before ++ (key, driverName) :: after) ++ [(key', value')])
      by (rewrite <- app_assoc; reflexivity).
    rewrite OGRCodes_of_snoc, lookup_insert_ne.
    + apply IH. intros k v Hin. apply (Hafter k v). apply elem_of_app. left. exact Hin.
    + apply (Hafter key' value'). apply elem_of_app. right. apply list_elem_of_here.
Qed.

Lemma OGRCodes_lookup_Some (formats : list (string * string)) ext driverName :
  OGRCodes_of formats !! ext = Some driverName <-> decides_driver formats ext driverName.
Proof.
  split.
  - revert ext driverName.
    induction formats as [| [key value] formats IH] using rev_ind;
      intros ext driverName Hlookup.
    + unfold OGRCodes_of in Hlookup. cbn in Hlookup.
      rewrite lookup_empty in Hlookup. discriminate.
    + rewrite OGRCodes_of_snoc in Hlookup.
      destruct (decide (filter_extension key = ext)) as [Heq | Hne].
      * rewrite Heq, lookup_insert_eq in Hlookup. injection Hlookup as <-.
        exists formats, key, []. split; [ reflexivity | ]. split; [ exact Heq | ].
        intros k v Hin. inversion Hin.
      * rewrite lookup_insert_ne in Hlookup by assumption.
        destruct (IH _ _ Hlookup) as (before & k & after & -> & Hk & Hafter).
        exists before, k, (after ++ [(key, value)]).
        split; [ rewrite <- app_assoc; reflexivity | ]. split; [ exact Hk | ].
        intros k' v' [Hin | Hin]%elem_of_app; [ exact (Hafter k' v' Hin) | ].
        apply list_elem_of_singleton in Hin. injection Hin as -> ->. exact Hne.
  - intros (before & key & after & -> & <- & Hafter).
    apply OGRCodes_last_format, Hafter.
Qed.

Lemma OGRCodes_lookup_None (formats : list (string * string)) ext :
  OGRCodes_of formats !! ext = None <-> no_format_reads formats ext.
Proof.
  unfold no_format_reads. split.
  - intros Hnone key value Hin Hext.
    destruct (OGRCodes_format_present formats key value Hin) as [d Hd].
    rewrite Hext in Hd. congruence.
  - intros Hno. destruct (OGRCodes_of formats !! ext) as [d |] eqn:Hd; [ | reflexivity ].
    destruct (OGRCodes_lookup_from_format _ _ _ Hd) as (key & Hin & Hext).
    exfalso. exact (Hno key d Hin Hext).
Qed.

(** X13: The table [OGRCodes] is determined by [formats]: under an
    extension it holds the driver of the last format, in iteration order,
    whose key reads as that extension, and it has no entry for an extension
    that no key reads as.  Of two formats that read as the same extension
    the later one decides the driver. *)
Theorem OGRCodes_lookup_is_last_format :
  forall (formats : list (string * string)) (ext : string),
    (forall driverName,
        OGRCodes_of formats !! ext = Some driverName
        <-> exists before key after,
              formats = before ++ (key, driverName) :: after
              /\ filter_extension key = ext
              /\ forall key' value', (key', value') ∈ after ->
                                     filter_extension key' <> ext)
    /\ (OGRCodes_of formats !! ext = None
        <-> forall key value, (key, value) ∈ formats -> filter_extension key <> ext).
Proof.
  intros formats ext. split.
  - intros driverName. apply OGRCodes_lookup_Some.
  - apply OGRCodes_lookup_None.
Qed.

Example OGRCodes_later_format_wins :
  OGRCodes_of [ ("A (*.shp *.SHP)", "D1"); ("B (*.shp)", "D2"); ("C (*.gpkg)", "GPKG") ]
    !! "shp" = Some "D2".
Proof. vm_compute. reflexivity. Qed.

(** *** [_fieldName] and the normalisation of fields *)

(** X14: [_fieldName] returns a string as it is and the name of a [QgsField];
    on a (name, type) tuple it raises [AttributeError].  On a normalised
    entry it returns the entry's name: the name of the field object, or the
    first component of the tuple. *)
Theorem fieldName_of_normalised_field :
  forall (f : FieldSpec) (s : string) (w : World),
    _fieldName (Name_entry (Field_object (_toQgsField f))) w
    = (Return (match f with
               | Field_object q => field_name q
               | Field_pair name _ => name
               end), w)
    /\ _fieldName (Name_text s) w = (Return s, w)
    /\ (forall name ty,
          _fieldName (Name_entry (Field_pair name ty)) w
          = (Raise (AttributeError "name"), w)).
Proof. intros f s w. destruct f; repeat split. Qed.

(** *** [new_vector_layer] with a file name *)

Lemma new_vector_layer_file H filename fields geometryType crs encoding w :
  new_vector_layer H (Some filename) fields geometryType crs encoding w
  = let OGRCodes := OGRCodes_of (supportedFiltersAndFormats H) in
    let c := match crs with
             | Crs_string authid => crs_from_string H authid
             | Crs_object c => c
             end in
    let qgsfields := match fields with
                     | Fields_QgsFields fs => fs
                     | Fields_list l => _toQgsField <$> l
                     end in
    let create (path driverName : string) :=
      (QgsVectorFileWriter path encoding qgsfields geometryType c driverName ;;
       QgsVectorLayer H path (os_path.basename path) "ogr") w in
    match OGRCodes !! PyStr.slice_from (snd (os_path.splitext filename)) 1 with
    | Some driverName => create filename driverName
    | None =>
        match OGRCodes !! "shp" with
        | Some shp => create (filename +:+ ".shp") shp
        | None => (Raise (KeyError "shp"), w)
        end
    end.
Proof.
  cbv zeta. unfold new_vector_layer.
  destruct crs; cbn;
    destruct (OGRCodes_of (supportedFiltersAndFormats H)
                !! PyStr.slice_from (os_path.splitext filename).2 1) as [d |] eqn:Hext;
    cbn; unfold OGRCodes_item; try rewrite Hext; try reflexivity;
    destruct (OGRCodes_of (supportedFiltersAndFormats H) !! "shp"); reflexivity.
Qed.

(** C2, as the code has it: the extension of a file name is recognised
    when it is, character for character, the extension that the key of
    some format reads as (the text between the first "*." of the key and
    the next space).  For a file name whose extension no format reads as,
    [new_vector_layer], on a host with a format that reads as "shp", writes
    with the driver of the last such format at the path with ".shp"
    appended and opens the layer from that longer path ("out.xyz" gives
    "out.xyz.shp"); for a file name whose extension some format reads as,
    it writes with the driver of the last format reading as that extension
    at the path as given, and opens the layer from it. *)
Theorem new_vector_layer_extension_by_first_pattern :
  forall H (filename : string) fields geometryType crs (encoding : string) w,
    let formats := supportedFiltersAndFormats H in
    let extension := PyStr.slice_from (snd (os_path.splitext filename)) 1 in
    let c := match crs with
             | Crs_string authid => crs_from_string H authid
             | Crs_object c => c
             end in
    let qgsfields := match fields with
                     | Fields_QgsFields fs => fs
                     | Fields_list l => _toQgsField <$> l
                     end in
    let created (path driverName : string) :=
      let written :=
        log (CallFileWriter path encoding qgsfields geometryType c driverName) w in
      (Return {| layer_name := os_path.basename path;
                 layer_type := VectorLayer;
                 layer_source := path;
                 layer_provider := "ogr";
                 layer_isValid := vector_valid H (journal written) path "ogr" |},
       log (CallVectorLayer path (os_path.basename path) "ogr") written) in
    (forall shp,
        no_format_reads formats extension ->
        decides_driver formats "shp" shp ->
        new_vector_layer H (Some filename) fields geometryType crs encoding w
        = created (filename +:+ ".shp") shp)
    /\ (forall driverName,
          decides_driver formats extension driverName ->
          new_vector_layer H (Some filename) fields geometryType crs encoding w
          = created filename driverName).
Proof.
  intros H filename fields geometryType crs encoding w. cbv zeta.
  rewrite new_vector_layer_file. cbv zeta. split.
  - intros shp Hnone Hshp.
    apply OGRCodes_lookup_None in Hnone. apply OGRCodes_lookup_Some in Hshp.
    rewrite Hnone, Hshp. reflexivity.
  - intros driverName Hdriver. apply OGRCodes_lookup_Some in Hdriver.
    rewrite Hdriver. reflexivity.
Qed.

Lemma new_vector_layer_extension_by_first_pattern_witness :
  no_format_reads (supportedFiltersAndFormats Sample.host) "xyz"
  /\ decides_driver (supportedFiltersAndFormats Sample.host) "shp" "ESRI Shapefile"
  /\ decides_driver (supportedFiltersAndFormats Sample.host) "geojson" "GeoJSON"
  /\ fst (new_vector_layer Sample.host (Some "out.xyz") (Fields_list []) WKBPoint
            (Crs_object Sample.wgs84) "utf-8" Sample.world)
     = Return {| layer_name := "out.xyz.shp"; layer_type := VectorLayer;
                 layer_source := "out.xyz.shp"; layer_provider := "ogr";
                 layer_isValid := true |}
  /\ fst (new_vector_layer Sample.host (Some "/tmp/out.geojson") (Fields_list []) WKBPoint
            (Crs_object Sample.wgs84) "utf-8" Sample.world)
     = Return {| layer_name := "out.geojson"; layer_type := VectorLayer;
                 layer_source := "/tmp/out.geojson"; layer_provider := "ogr";
                 layer_isValid := true |}.
Proof.
  assert (Hxyz : no_format_reads (supportedFiltersAndFormats Sample.host) "xyz").
  { apply OGRCodes_lookup_None. vm_compute. reflexivity. }
  assert (Hshp : decides_driver (supportedFiltersAndFormats Sample.host) "shp"
                   "ESRI Shapefile").
  { apply OGRCodes_lookup_Some. vm_compute. reflexivity. }
  assert (Hgeo : decides_driver (supportedFiltersAndFormats Sample.host) "geojson"
                   "GeoJSON").
  { apply OGRCodes_lookup_Some. vm_compute. reflexivity. }
  split; [ exact Hxyz | ]. split; [ exact Hshp | ]. split; [ exact Hgeo | ].
  split.
  - rewrite (proj1 (new_vector_layer_extension_by_first_pattern Sample.host "out.xyz"
                      (Fields_list []) WKBPoint (Crs_object Sample.wgs84) "utf-8"
                      Sample.world) "ESRI Shapefile" Hxyz Hshp).
    vm_compute. reflexivity.
  - rewrite (proj2 (new_vector_layer_extension_by_first_pattern Sample.host
                      "/tmp/out.geojson" (Fields_list []) WKBPoint
                      (Crs_object Sample.wgs84) "utf-8" Sample.world) "GeoJSON" Hgeo).
    vm_compute. reflexivity.
Defined.

(** C2, as stated, fails twice.  The sample host lists "*.SHP" among the
    patterns of its shapefile format, yet for "/tmp/OUT.SHP" the path is
    not kept: the file is written at "/tmp/OUT.SHP.shp", because only the
    first pattern of a key is read and extensions are compared as they
    are.  And on a host without a format that reads as "shp", the
    unsupported extension of "out.xyz" ends in [KeyError], not in a
    shapefile. *)
Lemma new_vector_layer_listed_extension_gets_shp_appended :
  ("ESRI Shapefile [OGR] (*.shp *.SHP)", "ESRI Shapefile")
    ∈ supportedFiltersAndFormats Sample.host
  /\ 0 <= PyStr.find "ESRI Shapefile [OGR] (*.shp *.SHP)" "*.SHP"
  /\ PyStr.slice_from (snd (os_path.splitext "/tmp/OUT.SHP")) 1 = "SHP"
  /\ journal (snd (new_vector_layer Sample.host (Some "/tmp/OUT.SHP") (Fields_list [])
                     WKBPoint (Crs_object Sample.wgs84) "utf-8" Sample.world))
     = [ CallFileWriter "/tmp/OUT.SHP.shp" "utf-8" [] WKBPoint Sample.wgs84 "ESRI Shapefile";
         CallVectorLayer "/tmp/OUT.SHP.shp" "OUT.SHP.shp" "ogr" ]
  /\ no_format_reads (supportedFiltersAndFormats host_without_shapefile) "xyz"
  /\ new_vector_layer host_without_shapefile (Some "out.xyz") (Fields_list [])
       WKBPoint (Crs_object Sample.wgs84) "utf-8" Sample.world
     = (Raise (KeyError "shp"), Sample.world).
Proof.
  split; [ decide_by_computation | ].
  split; [ vm_compute; discriminate | ].
  split; [ vm_compute; reflexivity | ].
  split; [ vm_compute; reflexivity | ].
  split; [ apply OGRCodes_lookup_None; vm_compute; reflexivity | ].
  vm_compute. reflexivity.
Qed.

(** X15: With a file name, the only way [new_vector_layer] fails is
    [KeyError("shp")], exactly when neither the extension of the file name
    nor "shp" is in the table of drivers, and then the host has received no
    call.  Whatever the outcome, the registry and the settings are as
    before: the layer created is not registered. *)
Theorem new_vector_layer_file_fails_only_without_shp :
  forall H (filename : string) fields geometryType crs (encoding : string) (w : World),
    let OGRCodes := OGRCodes_of (supportedFiltersAndFormats H) in
    let extension := PyStr.slice_from (snd (os_path.splitext filename)) 1 in
    let r := new_vector_layer H (Some filename) fields geometryType crs encoding w in
    (forall e, fst r = Raise e
               <-> e = KeyError "shp" /\ OGRCodes !! extension = None
                   /\ OGRCodes !! "shp" = None)
    /\ (forall e, fst r = Raise e -> snd r = w)
    /\ registry (snd r) = registry w
    /\ settings (snd r) = settings w.
Proof.
  intros H filename fields geometryType crs encoding w. cbv zeta.
  rewrite new_vector_layer_file. cbv zeta.
  destruct (OGRCodes_of (supportedFiltersAndFormats H)
              !! PyStr.slice_from (os_path.splitext filename).2 1) as [d |];
    [ | destruct (OGRCodes_of (supportedFiltersAndFormats H) !! "shp") as [shp |] ];
    cbn.
  all: split; [ intros e; split; [ intros He | intros (He & Hext & Hshp) ] | ].
  all: try discriminate.
  all: try (injection He as <-; repeat split; reflexivity).
  all: try (subst e; reflexivity).
  all: repeat split; try reflexivity; intros e He; discriminate.
Qed.

(** X16: A file name whose extension is the one read from some key of the
    host's formats is written at the path as given, by a driver that the
    host lists for a key reading as that extension, and the layer is
    opened from the same path. *)
Theorem new_vector_layer_supported_extension :
  forall H (filename key value : string) fields geometryType crs (encoding : string)
         (w : World),
    (key, value) ∈ supportedFiltersAndFormats H ->
    PyStr.slice_from (snd (os_path.splitext filename)) 1 = filter_extension key ->
    exists key' driverName layer w',
      (key', driverName) ∈ supportedFiltersAndFormats H
      /\ filter_extension key' = filter_extension key
      /\ new_vector_layer H (Some filename) fields geometryType crs encoding w
         = (Return layer, w')
      /\ layer_source layer = filename
      /\ layer_name layer = os_path.basename filename
      /\ exists qgsfields c,
           journal w' = journal w ++
             [ CallFileWriter filename encoding qgsfields geometryType c driverName;
               CallVectorLayer filename (os_path.basename filename) "ogr" ].
Proof.
  intros H filename key value fields geometryType crs encoding w Hin Hext.
  destruct (OGRCodes_format_present _ key value Hin) as [driverName Hdriver].
  destruct (OGRCodes_lookup_from_format _ _ _ Hdriver) as (key' & Hin' & Hext').
  exists key', driverName.
  rewrite new_vector_layer_file. cbv zeta. rewrite Hext, Hdriver.
  eexists. eexists. split; [ exact Hin' | ]. split; [ exact Hext' | ].
  split; [ reflexivity | ]. split; [ reflexivity | ]. split; [ reflexivity | ].
  eexists. eexists. cbn. rewrite <- app_assoc. reflexivity.
Qed.

Lemma new_vector_layer_supported_extension_witness :
  ("GeoJSON [OGR] (*.geojson *.GEOJSON)", "GeoJSON")
    ∈ supportedFiltersAndFormats Sample.host
  /\ PyStr.slice_from (snd (os_path.splitext "/tmp/out.geojson")) 1
     = filter_extension "GeoJSON [OGR] (*.geojson *.GEOJSON)"
  /\ exists key' driverName layer w',
       (key', driverName) ∈ supportedFiltersAndFormats Sample.host
       /\ filter_extension key' = filter_extension "GeoJSON [OGR] (*.geojson *.GEOJSON)"
       /\ new_vector_layer Sample.host (Some "/tmp/out.geojson") (Fields_list [])
            WKBPolygon (Crs_object Sample.wgs84) "utf-8" Sample.world
          = (Return layer, w')
       /\ layer_source layer = "/tmp/out.geojson"
       /\ layer_name layer = os_path.basename "/tmp/out.geojson"
       /\ exists qgsfields c,
            journal w' = journal Sample.world ++
              [ CallFileWriter "/tmp/out.geojson" "utf-8" qgsfields WKBPolygon c driverName;
                CallVectorLayer "/tmp/out.geojson"
                  (os_path.basename "/tmp/out.geojson") "ogr" ].
Proof.
  assert (Hin : ("GeoJSON [OGR] (*.geojson *.GEOJSON)", "GeoJSON")
                  ∈ supportedFiltersAndFormats Sample.host) by decide_by_computation.
  assert (Hext : PyStr.slice_from (snd (os_path.splitext "/tmp/out.geojson")) 1
                 = filter_extension "GeoJSON [OGR] (*.geojson *.GEOJSON)")
    by (vm_compute; reflexivity).
  split; [ exact Hin | ]. split; [ exact Hext | ].
  apply (new_vector_layer_supported_extension Sample.host "/tmp/out.geojson"
           "GeoJSON [OGR] (*.geojson *.GEOJSON)" "GeoJSON" (Fields_list []) WKBPolygon
           (Crs_object Sample.wgs84) "utf-8" Sample.world Hin Hext).
Defined.

(** X17: [new_vector_layer] normalises its arguments before use: a CRS given as
    a string acts as the CRS object the host builds from that string, and,
    with a file name, a list of field entries acts as the [QgsFields] that
    holds the normalised entries. *)
Theorem new_vector_layer_normalises_arguments :
  forall H (filename : option string) (path : string) (fields : FieldsArg)
         (l : list FieldSpec) geometryType (crs : CrsArg) (authid encoding : string)
         (w : World),
    new_vector_layer H filename fields geometryType (Crs_string authid) encoding w
    = new_vector_layer H filename fields geometryType
        (Crs_object (crs_from_string H authid)) encoding w
    /\ new_vector_layer H (Some path) (Fields_list l) geometryType crs encoding w
       = new_vector_layer H (Some path) (Fields_QgsFields (_toQgsField <$> l))
           geometryType crs encoding w.
Proof.
  intros H filename path fields l geometryType crs authid encoding w.
  split; [ reflexivity | ].
  rewrite !new_vector_layer_file. reflexivity.
Qed.

(** X18: Asking for a file with an extension that is not in the table is the
    same as asking for that path with ".shp" appended, whenever the longer
    path splits at its last dot: same file written, same layer returned,
    same error on a host without a driver for "shp". *)
Theorem new_vector_layer_fallback_equals_shp_path :
  forall H (filename : string) fields geometryType crs (encoding : string) (w : World),
    OGRCodes_of (supportedFiltersAndFormats H)
      !! PyStr.slice_from (snd (os_path.splitext filename)) 1 = None ->
    PyStr.slice_from (snd (os_path.splitext (filename +:+ ".shp"))) 1 = "shp" ->
    new_vector_layer H (Some filename) fields geometryType crs encoding w
    = new_vector_layer H (Some (filename +:+ ".shp")) fields geometryType crs encoding w.
Proof.
  intros H filename fields geometryType crs encoding w Hext Hshp.
  rewrite !new_vector_layer_file. cbv zeta. rewrite Hext, Hshp.
  destruct (OGRCodes_of (supportedFiltersAndFormats H) !! "shp"); reflexivity.
Qed.

Lemma new_vector_layer_fallback_equals_shp_path_witness :
  OGRCodes_of (supportedFiltersAndFormats Sample.host)
    !! PyStr.slice_from (snd (os_path.splitext "out.xyz")) 1 = None
  /\ PyStr.slice_from (snd (os_path.splitext ("out.xyz" +:+ ".shp"))) 1 = "shp"
  /\ new_vector_layer Sample.host (Some "out.xyz") (Fields_list [Field_pair "id" Py_int])
       WKBPoint (Crs_string "EPSG:4326") "utf-8" Sample.world
     = new_vector_layer Sample.host (Some ("out.xyz" +:+ ".shp"))
         (Fields_list [Field_pair "id" Py_int])
         WKBPoint (Crs_string "EPSG:4326") "utf-8" Sample.world.
Proof.
  assert (Hext : OGRCodes_of (supportedFiltersAndFormats Sample.host)
                   !! PyStr.slice_from (snd (os_path.splitext "out.xyz")) 1 = None)
    by (vm_compute; reflexivity).
  assert (Hshp : PyStr.slice_from (snd (os_path.splitext ("out.xyz" +:+ ".shp"))) 1 = "shp")
    by (vm_compute; reflexivity).
  split; [ exact Hext | ]. split; [ exact Hshp | ].
  apply (new_vector_layer_fallback_equals_shp_path Sample.host "out.xyz"
           (Fields_list [Field_pair "id" Py_int]) WKBPoint (Crs_string "EPSG:4326")
           "utf-8" Sample.world Hext Hshp).
Defined.

(** *** The line wrapper *)

(** X19: [new_lines_layer] returns a layer on no host: where the global name
    [newVectorLayer] is unbound it raises [NameError], and where it is
    bound the argument [QGis.WKBLine] raises [AttributeError] before the
    call is made.  The host is left as it was. *)
Theorem new_lines_layer_always_raises :
  forall H (filename : option string) (fields : FieldsArg) (crs : CrsArg)
         (encoding : string) (w : World),
    exists e,
      new_lines_layer H filename fields crs encoding w = (Raise e, w)
      /\ (e = NameError "newVectorLayer" \/ e = AttributeError "WKBLine")
      /\ (e = AttributeError "WKBLine" <-> "newVectorLayer" ∈ ambient H).
Proof.
  intros H filename fields crs encoding w. unfold new_lines_layer, load_global.
  destruct (decide ("newVectorLayer" ∈ ambient H)) as [Hbound | Hunbound].
  - rewrite bool_decide_eq_true_2 by assumption.
    exists (AttributeError "WKBLine"). split; [ reflexivity | ].
    split; [ right; reflexivity | ]. split; auto.
  - rewrite bool_decide_eq_false_2 by assumption.
    exists (NameError "newVectorLayer"). split; [ reflexivity | ].
    split; [ left; reflexivity | ]. split; [ discriminate | contradiction ].
Qed.
